(** * wptrunner/environment.py: the test-environment lifecycle

    A shallow embedding of [wptrunner/environment.py] and the
    verification of its lifecycle, configuration and routing behaviour.

    Conventions.
    - Python values that flow through option mappings and JSON
      documents are [pyval]; a [dict] with string keys is a [gmap].
    - Every method that touches the process or a collaborator runs in
      the monad [M]: it threads a [World] and either returns a value or
      raises a Python exception.  The world state reached when an
      exception is raised is kept, so that what happened before the
      raise can be observed.
    - The collaborators that are not part of this module ([json],
      [os.path], the [serve] module, the SSL environment object) are
      taken as interfaces (type classes); the module is modelled after
      [do_delayed_imports] has bound [serve] and [sslutils]. *)

From Stdlib Require Import ZArith String Ascii List Bool Lia DecimalString.
From Stdlib Require DecimalPos DecimalZ.
From stdpp Require Import base option list gmap strings.

Local Open Scope string_scope.
Local Open Scope Z_scope.

(** ** Python values *)

#[warnings="-register-all"]
Inductive pyval : Type :=
| PyNone
| PyBool (b : bool)
| PyInt (n : Z)
| PyStr (s : string)
| PyList (l : list pyval)
| PyDict (d : gmap string pyval).

(** Truth value testing, as done by [if x:], [not x] and [x and y]. *)
Definition py_truthy (v : pyval) : bool :=
  match v with
  | PyNone => false
  | PyBool b => b
  | PyInt n => negb (n =? 0)
  | PyStr s => negb (String.eqb s "")
  | PyList l => match l with [] => false | _ => true end
  | PyDict d => negb (bool_decide (d = ∅))
  end.

(** [v == "literal"] for a string literal on the right. *)
Definition py_eq_str (v : pyval) (lit : string) : bool :=
  match v with
  | PyStr s => String.eqb s lit
  | _ => false
  end.

(** ** Exceptions *)

Inductive exn : Type :=
| NameError (name : string)
| TypeError (msg : string)
| KeyError (key : string)
| AttributeError (msg : string)
| IOError (path : string)
| ValueError (msg : string)
| AssertionError
| EnvironmentError (msg : string)
| SocketError                           (* socket.error *)
| TestEnvironmentError (msg : string)
| OverflowError (msg : string)
| KeyErrorOf (key : pyval).             (* KeyError for a key that is not a string *)

(** The name of the class of an exception object. *)
Definition exn_class (e : exn) : string :=
  match e with
  | NameError _ => "NameError"
  | TypeError _ => "TypeError"
  | KeyError _ => "KeyError"
  | AttributeError _ => "AttributeError"
  | IOError _ => "IOError"
  | ValueError _ => "ValueError"
  | AssertionError => "AssertionError"
  | EnvironmentError _ => "EnvironmentError"
  | SocketError => "socket.error"
  | TestEnvironmentError _ => "TestEnvironmentError"
  | OverflowError _ => "OverflowError"
  | KeyErrorOf _ => "KeyError"
  end.

Inductive result (A : Type) : Type :=
| Ok (a : A)
| Raise (e : exn).
Arguments Ok {A} a.
Arguments Raise {A} e.

Definition is_ok {A} (r : result A) : bool :=
  match r with Ok _ => true | Raise _ => false end.

(** ** Subscripting *)

(** [obj[key]] with a string key. *)
Definition py_getitem (obj : pyval) (key : string) : result pyval :=
  match obj with
  | PyDict d =>
      match d !! key with
      | Some v => Ok v
      | None => Raise (KeyError key)
      end
  | PyList _ | PyStr _ => Raise (TypeError "indices must be integers")
  | _ => Raise (TypeError "object has no attribute '__getitem__'")
  end.

(** [obj[key] = v] with a string key; the updated object is returned. *)
Definition py_setitem (obj : pyval) (key : string) (v : pyval) : result pyval :=
  match obj with
  | PyDict d => Ok (PyDict (<[key := v]> d))
  | PyList _ => Raise (TypeError "list indices must be integers")
  | _ => Raise (TypeError "object does not support item assignment")
  end.

(** [d.get(key, default)] *)
Definition dict_get (d : gmap string pyval) (key : string) (default : pyval) : pyval :=
  match d !! key with
  | Some v => v
  | None => default
  end.

(** ** The process and its surroundings *)

(** Disposition of a signal: [signal.SIG_DFL], [signal.SIG_IGN], or a
    handler installed by somebody else. *)
Inductive sighandler : Type :=
| SIG_DFL
| SIG_IGN
| SigHandler (name : string).

(** A server process handle, identified by its pid. *)
Definition proc : Type := positive.

(** The three arguments of [__exit__]. *)
Record exc_info : Type := ExcInfo {
  exc_type : pyval;
  exc_val : pyval;
  exc_tb : pyval
}.

(** Calls made to collaborators, in the order they are made. *)
Inductive event : Type :=
| EvManagerCreated                      (* multiprocessing.Manager() *)
| EvStashCreated                        (* serve.stash.StashServer() *)
| EvCacheManagerEnter
| EvCacheManagerExit (exc : exc_info)
| EvStashEnter
| EvStashExit
| EvSslEnter
| EvSslExit (exc : exc_info)
| EvSetupServerLogging
| EvSetComputedDefaults
| EvServeStart
| EvSignal (h : sighandler)             (* signal.signal(SIGINT, h) *)
| EvKill (p : proc)
| EvSleep (seconds : Z)
| EvSocket
| EvConnect (host : pyval) (port : Z)
| EvSocketClose
| EvIsAlive (p : proc).

Record World : Type := mkWorld {
  sigint : sighandler;                  (* disposition of SIGINT *)
  alive : gset proc;                    (* server processes still running *)
  files : gmap string string;           (* readable files and their content *)
  accepting : pyval -> Z -> bool;       (* does (host, port) accept a TCP connect *)
  default_logger : bool;                (* has mozlog a default logger *)
  log : list event                      (* collaborator calls so far, oldest first *)
}.

Definition set_sigint (h : sighandler) (w : World) : World :=
  mkWorld h (alive w) (files w) (accepting w) (default_logger w) (log w).
Definition set_alive (a : gset proc) (w : World) : World :=
  mkWorld (sigint w) a (files w) (accepting w) (default_logger w) (log w).
Definition add_log (e : event) (w : World) : World :=
  mkWorld (sigint w) (alive w) (files w) (accepting w) (default_logger w) (log w ++ [e]).

(** ** The monad of methods: state and exceptions *)

Definition M (A : Type) : Type := World -> result A * World.

Definition ret {A} (a : A) : M A := fun w => (Ok a, w).
Definition raise {A} (e : exn) : M A := fun w => (Raise e, w).
Definition bind {A B} (m : M A) (k : A -> M B) : M B :=
  fun w =>
    match m w with
    | (Ok a, w') => k a w'
    | (Raise e, w') => (Raise e, w')
    end.
Definition lift {A} (r : result A) : M A := fun w => (r, w).
Definition emit (e : event) : M unit := fun w => (Ok tt, add_log e w).
Definition get_world : M World := fun w => (Ok w, w).
Definition modify (f : World -> World) : M unit := fun w => (Ok tt, f w).

Declare Scope py_scope.
Delimit Scope py_scope with py.
Notation "x <- m ;; k" := (bind m (fun x => k))
  (at level 100, m at next level, right associativity) : py_scope.
Notation "m ;; k" := (bind m (fun _ => k))
  (at level 100, right associativity) : py_scope.
Local Open Scope py_scope.

(** [try: body except <handled>: handler] *)
Definition try_except {A} (body : M A) (handler : exn -> option (M A)) : M A :=
  fun w =>
    match body w with
    | (Ok a, w') => (Ok a, w')
    | (Raise e, w') =>
        match handler e with
        | Some h => h w'
        | None => (Raise e, w')
        end
    end.

(** [try: body finally: final] *)
Definition try_finally {A} (body : M A) (final : M unit) : M A :=
  fun w =>
    match body w with
    | (r, w') =>
        match final w' with
        | (Ok _, w'') => (r, w'')
        | (Raise e, w'') => (Raise e, w'')
        end
    end.

(** [for x in xs: body(x)]: stops at the first exception. *)
Fixpoint for_each {A} (xs : list A) (body : A -> M unit) : M unit :=
  match xs with
  | [] => ret tt
  | x :: xs' => body x ;; for_each xs' body
  end.

(** ** [get_ssl_kwargs] and [ssl_env] (lines 63-77) *)

(** [kwargs[key]] on the keyword mapping of a call. *)
Definition kw_getitem (kwargs : gmap string pyval) (key : string) : result pyval :=
  match kwargs !! key with
  | Some v => Ok v
  | None => Raise (KeyError key)
  end.

Definition rbind {A B} (r : result A) (k : A -> result B) : result B :=
  match r with
  | Ok a => k a
  | Raise e => Raise e
  end.
Notation "x <-r m ;; k" := (rbind m (fun x => k))
  (at level 100, m at next level, right associativity) : py_scope.

Definition get_ssl_kwargs (kwargs : gmap string pyval) : result (gmap string pyval) :=
  ssl_type <-r kw_getitem kwargs "ssl_type" ;;
  if py_eq_str ssl_type "openssl" then
    openssl_binary <-r kw_getitem kwargs "openssl_binary" ;;
    Ok {[ "openssl_binary" := openssl_binary ]}
  else
    ssl_type' <-r kw_getitem kwargs "ssl_type" ;;
    if py_eq_str ssl_type' "pregenerated" then
      host_key_path <-r kw_getitem kwargs "host_key_path" ;;
      host_cert_path <-r kw_getitem kwargs "host_cert_path" ;;
      ca_cert_path <-r kw_getitem kwargs "ca_cert_path" ;;
      Ok (<[ "host_key_path" := host_key_path ]>
          (<[ "host_cert_path" := host_cert_path ]>
           {[ "ca_cert_path" := ca_cert_path ]}))
    else
      Ok ∅.

(** The keys of [sslutils.environments] are given by the interface
    below; the class found there is called with the keyword arguments
    chosen by [get_ssl_kwargs].  The result records which class is
    called and with which keyword arguments. *)
Class SslUtils : Type := {
  environments : gset string
}.

(** [sslutils.environments[key]]: the keys are strings, so any other
    hashable key is missing and a list or a dict cannot be hashed. *)
Definition environments_getitem `{SslUtils} (key : pyval) : result string :=
  match key with
  | PyStr s => if bool_decide (s ∈ environments) then Ok s else Raise (KeyError s)
  | PyList _ | PyDict _ => Raise (TypeError "unhashable type")
  | _ => Raise (KeyErrorOf key)
  end.

Definition ssl_env `{SslUtils} (kwargs : gmap string pyval)
  : result (string * gmap string pyval) :=
  ssl_type <-r kw_getitem kwargs "ssl_type" ;;
  ssl_env_cls <-r environments_getitem ssl_type ;;
  args <-r get_ssl_kwargs kwargs ;;
  Ok (ssl_env_cls, args).

(** ** Data of an environment *)

(** An entry of [test_paths]: a descriptor that has at least [tests_path]. *)
Record path_descriptor : Type := PathDescriptor {
  tests_path : string;
  other_paths : gmap string string
}.

Record DebugInfo : Type := { interactive : bool }.

(** The SSL environment object handed to the constructor. *)
Record SslEnv : Type := {
  ssl_enabled : bool;
  host_cert_path : list pyval -> result (pyval * pyval)
}.

Inductive Route : Type :=
| StaticRoute (path : string) (format_args : gmap string pyval)
              (content_type : string) (route : string)
| MountPoint (url_base : string) (path : option string).

(** [self.servers]: scheme to list of (port, process). *)
Definition servers_t : Type := list (string * list (Z * proc)).

Record Env : Type := mkEnv {
  test_paths : gmap string path_descriptor;
  self_ssl_env : SslEnv;
  config : pyval;
  external_config : pyval;
  pause_after_test : bool;
  test_server_port : pyval;
  debug_info : option DebugInfo;
  options : gmap string pyval;
  routes : option (list Route);         (* set by LocalServerEnvironment.__init__ *)
  servers : option servers_t            (* set by LocalServerEnvironment.__enter__ *)
}.

Definition set_config (c : pyval) (e : Env) : Env :=
  mkEnv (test_paths e) (self_ssl_env e) c (external_config e) (pause_after_test e)
        (test_server_port e) (debug_info e) (options e) (routes e) (servers e).
Definition set_external_config (c : pyval) (e : Env) : Env :=
  mkEnv (test_paths e) (self_ssl_env e) (config e) c (pause_after_test e)
        (test_server_port e) (debug_info e) (options e) (routes e) (servers e).
Definition set_routes (r : list Route) (e : Env) : Env :=
  mkEnv (test_paths e) (self_ssl_env e) (config e) (external_config e) (pause_after_test e)
        (test_server_port e) (debug_info e) (options e) (Some r) (servers e).
Definition set_servers (s : servers_t) (e : Env) : Env :=
  mkEnv (test_paths e) (self_ssl_env e) (config e) (external_config e) (pause_after_test e)
        (test_server_port e) (debug_info e) (options e) (routes e) (Some s).

(** ** [serve_path] (lines 59-60) *)

Definition serve_path (a_test_paths : gmap string path_descriptor) : result string :=
  match a_test_paths !! "/" with
  | Some d => Ok (tests_path d)
  | None => Raise (KeyError "/")
  end.

(** ** [BaseEnvironment] (lines 84-110) *)

Definition BaseEnvironment___init__
    (a_test_paths : gmap string path_descriptor) (a_ssl_env : SslEnv)
    (a_pause_after_test : bool) (a_debug_info : option DebugInfo)
    (a_options : option (gmap string pyval)) : M Env :=
  match a_options with
  | None => raise (AttributeError "'NoneType' object has no attribute 'pop'")
  | Some opts =>
      (* options.pop("test_server_port", True) also removes the key *)
      let port_option := dict_get opts "test_server_port" (PyBool true) in
      let opts' := delete "test_server_port" opts in
      emit EvManagerCreated ;;
      emit EvStashCreated ;;
      ret (mkEnv a_test_paths a_ssl_env PyNone PyNone a_pause_after_test
                 port_option a_debug_info opts' None None)
  end.

Definition BaseEnvironment___enter__ (self : Env) : M Env :=
  emit EvCacheManagerEnter ;;
  emit EvStashEnter ;;
  ret self.

Definition BaseEnvironment___exit__ (self : Env) (exc_type exc_val exc_tb : pyval) : M unit :=
  emit (EvCacheManagerExit (ExcInfo exc_type exc_val exc_tb)) ;;
  emit EvStashExit.

(** The call [BaseEnvironment.__exit__(self, *args)]: the function has
    the parameters [self, exc_type, exc_val, exc_tb] and no defaults. *)
Definition call_BaseEnvironment___exit__ (self : Env) (args : list pyval) : M unit :=
  match args with
  | [exc_type; exc_val; exc_tb] => BaseEnvironment___exit__ self exc_type exc_val exc_tb
  | _ => raise (TypeError "__exit__() takes exactly 4 arguments")
  end.

Definition BaseEnvironment_ensure_started (self : Env) : M unit := ret tt.

(** ** [RemoteServerEnvironment] (lines 112-116) *)

Definition RemoteServerEnvironment___init__
    (a_test_paths : gmap string path_descriptor) (a_ssl_env : SslEnv)
    (a_pause_after_test : bool) (a_debug_info : option DebugInfo)
    (a_options : option (gmap string pyval)) : M Env :=
  self <- BaseEnvironment___init__ a_test_paths a_ssl_env a_pause_after_test
                                   a_debug_info a_options ;;
  (* assert not self.pause_after_test *)
  (if pause_after_test self then raise AssertionError else ret tt) ;;
  (* [options] is the object that the base constructor popped from *)
  ext <- lift (kw_getitem (options self) "external_config") ;;
  ret (set_external_config ext self).

(** ** Collaborators of [LocalServerEnvironment] *)

(** [os.path] and the module constant [here]. *)
Class OsPath : Type := {
  here : string;
  os_path_join : string -> string -> string;
  os_path_normpath : string -> string
}.

(** [json.loads]: [None] stands for the [ValueError] of a failed parse. *)
Class Json : Type := {
  json_loads : string -> option pyval
}.

(** What [%] does with one directive once its value is known.
    [format_conversion v rest] formats the value [v] found under a
    mapping key according to the conversion that starts [rest];
    [format_positional opts rest] handles a directive without a mapping
    key.  Both return the text produced and the number of characters of
    [rest] that the directive takes. *)
Class StringFormat : Type := {
  format_conversion : pyval -> string -> result (string * nat);
  format_positional : gmap string pyval -> string -> result (string * nat)
}.

(** The functions of the [serve] module used here.  [subdomain_hosts host]
    is the list ["%s.%s" % (item[0], host) for item in
    serve.get_subdomains(host).values()]; [serve_start] returns the
    external configuration and the servers it spawned. *)
Class Serve : Type := {
  merge_json : pyval -> pyval -> result pyval;
  set_computed_defaults : pyval -> result pyval;
  subdomain_hosts : pyval -> result (list pyval);
  serve_start : pyval -> SslEnv -> list Route -> result (pyval * servers_t)
}.

(** Modelled from the spec: the routes builder [serve.RoutesBuilder],
    whose code is not part of this module.  It keeps the static routes in
    the order they are added and an insertion-ordered mapping from URL
    prefix to mount point; a fresh builder has the root mount point
    synthesized; the routes it returns are the static routes first, then
    the mount points. *)
Record RoutesBuilder : Type := mkBuilder {
  static : list Route;
  mountpoint_routes : list (string * Route)
}.

Definition RoutesBuilder_new : RoutesBuilder :=
  mkBuilder [] [("/", MountPoint "/" None)].

Definition add_static (path : string) (format_args : gmap string pyval)
    (content_type route : string) (b : RoutesBuilder) : RoutesBuilder :=
  mkBuilder (static b ++ [StaticRoute path format_args content_type route])
            (mountpoint_routes b).

(** [d[k] = v] on an insertion-ordered mapping. *)
Fixpoint od_set {V} (k : string) (v : V) (d : list (string * V)) : list (string * V) :=
  match d with
  | [] => [(k, v)]
  | (k', v') :: d' =>
      if String.eqb k' k then (k, v) :: d' else (k', v') :: od_set k v d'
  end.

(** [del d[k]] on an insertion-ordered mapping. *)
Fixpoint od_del {V} (k : string) (d : list (string * V)) : option (list (string * V)) :=
  match d with
  | [] => None
  | (k', v') :: d' =>
      if String.eqb k' k then Some d'
      else match od_del k d' with
           | Some d'' => Some ((k', v') :: d'')
           | None => None
           end
  end.

Definition add_mount_point (url_base path : string) (b : RoutesBuilder) : RoutesBuilder :=
  mkBuilder (static b)
            (od_set url_base (MountPoint url_base (Some path)) (mountpoint_routes b)).

Definition del_mountpoint_route (key : string) (b : RoutesBuilder) : result RoutesBuilder :=
  match od_del key (mountpoint_routes b) with
  | Some d => Ok (mkBuilder (static b) d)
  | None => Raise (KeyError key)
  end.

Definition RoutesBuilder_get_routes (b : RoutesBuilder) : list Route :=
  static b ++ map snd (mountpoint_routes b).

(** ** [LocalServerEnvironment.get_routes] (lines 198-217) *)

(** The argument of [os.path.join] has to be a string. *)
Definition as_path (v : pyval) : result string :=
  match v with
  | PyStr s => Ok s
  | _ => Raise (AttributeError "object has no attribute 'startswith'")
  end.

(** The two tuples of the first loop (lines 202-205). *)
Definition static_specs (self : Env)
  : list (pyval * gmap string pyval * string * string) :=
  [ (PyStr "testharness_runner.html", ∅, "text/html", "/testharness_runner.html");
    (dict_get (options self) "testharnessreport" (PyStr "testharnessreport.js"),
     {[ "output" := PyBool (pause_after_test self) ]},
     "text/javascript", "/resources/testharnessreport.js") ].

Fixpoint add_statics `{OsPath}
    (specs : list (pyval * gmap string pyval * string * string))
    (b : RoutesBuilder) : result RoutesBuilder :=
  match specs with
  | [] => Ok b
  | (path, format_args, content_type, route) :: rest =>
      p <-r as_path path ;;
      let path' := os_path_normpath (os_path_join here p) in
      add_statics rest (add_static path' format_args content_type route b)
  end.

(** The second loop (lines 209-212), over [test_paths.iteritems()]. *)
Fixpoint add_mount_points (items : list (string * path_descriptor))
    (b : RoutesBuilder) : RoutesBuilder :=
  match items with
  | [] => b
  | (url_base, paths) :: rest =>
      if String.eqb url_base "/" then add_mount_points rest b
      else add_mount_points rest (add_mount_point url_base (tests_path paths) b)
  end.

Definition get_routes `{OsPath} (self : Env) : result (list Route) :=
  let route_builder := RoutesBuilder_new in
  route_builder <-r add_statics (static_specs self) route_builder ;;
  let route_builder := add_mount_points (map_to_list (test_paths self)) route_builder in
  route_builder <-r
    (if bool_decide (test_paths self !! "/" = None)
     then del_mountpoint_route "/" route_builder
     else Ok route_builder) ;;
  Ok (RoutesBuilder_get_routes route_builder).

(** ** String interpolation [data % self.options] (line 159) *)

(** Reads a mapping key up to the parenthesis that closes it; [depth]
    counts the parentheses opened inside the key.  Returns the key and
    the text after the closing parenthesis. *)
Fixpoint read_key (s : string) (depth : nat) (acc : string) : option (string * string) :=
  match s with
  | EmptyString => None
  | String c rest =>
      if Ascii.eqb c ")" then
        match depth with
        | O => Some (acc, rest)
        | S d => read_key rest d (acc ++ ")")
        end
      else if Ascii.eqb c "(" then read_key rest (S depth) (acc ++ "(")
      else read_key rest depth (acc ++ String c EmptyString)
  end.

(** One directive; [rest] is the text after the percent sign.  Returns
    the text produced and how many characters of [rest] it takes. *)
Definition directive `{StringFormat} (rest : string) (opts : gmap string pyval)
  : result (string * nat) :=
  match rest with
  | EmptyString => Raise (ValueError "incomplete format")
  | String c r =>
      if Ascii.eqb c "%" then Ok ("%", 1%nat)
      else if Ascii.eqb c "(" then
        match read_key r 0 "" with
        | None => Raise (ValueError "incomplete format key")
        | Some (key, after) =>
            match opts !! key with
            | None => Raise (KeyError key)
            | Some v =>
                r <-r format_conversion v after ;;
                Ok (r.1, (String.length key + 2 + r.2)%nat)
            end
        end
      else format_positional opts rest
  end.

(** [s % opts] for a mapping [opts]; [skip] characters of [s] belong to
    the directive just handled. *)
Fixpoint interpolate `{StringFormat} (s : string) (skip : nat) (opts : gmap string pyval)
  : result string :=
  match s with
  | EmptyString => Ok EmptyString
  | String c rest =>
      match skip with
      | S k => interpolate rest k opts
      | O =>
          if Ascii.eqb c "%" then
            d <-r directive rest opts ;;
            tail <-r interpolate rest d.2 opts ;;
            Ok (d.1 ++ tail)
          else
            tail <-r interpolate rest 0 opts ;;
            Ok (String c tail)
      end
  end.

Definition py_mod `{StringFormat} (data : string) (opts : gmap string pyval) : result string :=
  interpolate data 0 opts.

(** ** [LocalServerEnvironment.load_config] (lines 150-180) *)

(** [with open(path) as f: f.read()] *)
Definition read_file (path : string) : M string :=
  w <- get_world ;;
  match files w !! path with
  | Some data => ret data
  | None => raise (IOError path)
  end.

(** [json.loads(data)] *)
Definition json_parse `{Json} (data : string) : result pyval :=
  match json_loads data with
  | Some v => Ok v
  | None => Raise (ValueError "No JSON object could be decoded")
  end.

Definition load_config `{OsPath, Json, StringFormat, Serve} (self : Env) : M pyval :=
  root <- lift (serve_path (test_paths self)) ;;
  let default_config_path := os_path_join root "config.default.json" in
  let local_config_path := os_path_join here "config.json" in
  data0 <- read_file default_config_path ;;
  default_config <- lift (json_parse data0) ;;
  data <- read_file local_config_path ;;
  text <- lift (py_mod data (options self)) ;;
  local_config <- lift (json_parse text) ;;
  local_config <- lift (py_setitem local_config "external_host"
                          (dict_get (options self) "external_host" PyNone)) ;;
  ssl <- lift (py_getitem local_config "ssl") ;;
  ssl <- lift (py_setitem ssl "encrypt_after_connect"
                 (dict_get (options self) "encrypt_after_connect" (PyBool false))) ;;
  local_config <- lift (py_setitem local_config "ssl" ssl) ;;
  config <- lift (merge_json default_config local_config) ;;
  doc_root <- lift (serve_path (test_paths self)) ;;
  config <- lift (py_setitem config "doc_root" (PyStr doc_root)) ;;
  config <- (if negb (ssl_enabled (self_ssl_env self)) then
               ports <- lift (py_getitem config "ports") ;;
               ports <- lift (py_setitem ports "https" (PyList [PyNone])) ;;
               lift (py_setitem config "ports" ports)
             else ret config) ;;
  (* the default [config["host"]] is evaluated before [get] is called *)
  config_host <- lift (py_getitem config "host") ;;
  let host := dict_get (options self) "certificate_domain" config_host in
  more <- lift (subdomain_hosts host) ;;
  let hosts := host :: more in
  cert <- lift (host_cert_path (self_ssl_env self) hosts) ;;
  let '(key_file, certificate) := cert in
  config <- lift (py_setitem config "key_file" key_file) ;;
  config <- lift (py_setitem config "certificate" certificate) ;;
  ret config.

(** ** Names and calls, as far as [LocalServerEnvironment.__init__] needs them *)

(** An argument handed to a constructor. *)
Inductive ctor_arg : Type :=
| ArgTestPaths (tp : gmap string path_descriptor)
| ArgSslEnv (e : SslEnv)
| ArgDebugInfo (d : DebugInfo)
| ArgOptions (o : gmap string pyval)
| ArgVal (v : pyval).

(** What a name can be bound to inside the constructor. *)
Inductive pyobj : Type :=
| ObjSelf
| ObjTuple (items : list ctor_arg)
| ObjMapping (items : gmap string ctor_arg)
| ObjGlobal (name : string).

(** The names bound at module level (imports, constants, functions and
    classes; [item] is left behind by the list comprehension of line 31). *)
Definition module_globals : list string :=
  [ "json"; "os"; "multiprocessing"; "signal"; "socket"; "sys"; "time";
    "get_default_logger"; "handlers"; "LogLevelRewriter";
    "here"; "serve"; "sslutils"; "subdomains"; "host"; "hostnames"; "item";
    "do_delayed_imports"; "serve_path"; "get_ssl_kwargs"; "ssl_env";
    "TestEnvironmentError"; "BaseEnvironment"; "RemoteServerEnvironment";
    "LocalServerEnvironment";
    "__name__"; "__file__"; "__doc__"; "__package__"; "__builtins__" ].

(** The names of the builtin module. *)
Definition builtins : list string :=
  [ "ArithmeticError"; "AssertionError"; "AttributeError"; "BaseException";
    "BufferError"; "BytesWarning"; "DeprecationWarning"; "EOFError"; "Ellipsis";
    "EnvironmentError"; "Exception"; "False"; "FloatingPointError";
    "FutureWarning"; "GeneratorExit"; "IOError"; "ImportError"; "ImportWarning";
    "IndentationError"; "IndexError"; "KeyError"; "KeyboardInterrupt";
    "LookupError"; "MemoryError"; "NameError"; "None"; "NotImplemented";
    "NotImplementedError"; "OSError"; "OverflowError";
    "PendingDeprecationWarning"; "ReferenceError"; "RuntimeError";
    "RuntimeWarning"; "StandardError"; "StopIteration"; "SyntaxError";
    "SyntaxWarning"; "SystemError"; "SystemExit"; "TabError"; "True";
    "TypeError"; "UnboundLocalError"; "UnicodeDecodeError"; "UnicodeEncodeError";
    "UnicodeError"; "UnicodeTranslateError"; "UnicodeWarning"; "UserWarning";
    "ValueError"; "Warning"; "ZeroDivisionError"; "__debug__"; "__doc__";
    "__import__"; "__name__"; "__package__";
    "abs"; "all"; "any"; "apply"; "basestring"; "bin"; "bool"; "buffer";
    "bytearray"; "bytes"; "callable"; "chr"; "classmethod"; "cmp"; "coerce";
    "compile"; "complex"; "copyright"; "credits"; "delattr"; "dict"; "dir";
    "divmod"; "enumerate"; "eval"; "execfile"; "exit"; "file"; "filter"; "float";
    "format"; "frozenset"; "getattr"; "globals"; "hasattr"; "hash"; "help";
    "hex"; "id"; "input"; "int"; "intern"; "isinstance"; "issubclass"; "iter";
    "len"; "license"; "list"; "locals"; "long"; "map"; "max"; "memoryview";
    "min"; "next"; "object"; "oct"; "open"; "ord"; "pow"; "print"; "property";
    "quit"; "range"; "raw_input"; "reduce"; "reload"; "repr"; "reversed";
    "round"; "set"; "setattr"; "slice"; "sorted"; "staticmethod"; "str"; "sum";
    "super"; "tuple"; "type"; "unichr"; "unicode"; "vars"; "xrange"; "zip" ].

(** Name resolution: local scope, then module scope, then builtins. *)
Definition load_name (locals : gmap string pyobj) (name : string) : result pyobj :=
  match locals !! name with
  | Some o => Ok o
  | None =>
      if existsb (String.eqb name) module_globals then Ok (ObjGlobal name)
      else if existsb (String.eqb name) builtins then Ok (ObjGlobal name)
      else Raise (NameError name)
  end.

(** [*x] in a call *)
Definition star_args (o : pyobj) : result (list ctor_arg) :=
  match o with
  | ObjTuple items => Ok items
  | _ => Raise (TypeError "argument after * must be a sequence")
  end.

(** [**x] in a call *)
Definition star_kwargs (o : pyobj) : result (gmap string ctor_arg) :=
  match o with
  | ObjMapping items => Ok items
  | _ => Raise (TypeError "argument after ** must be a mapping")
  end.

(** Binding of positional and keyword arguments to the parameters
    [names], none of which has a default. *)
Fixpoint bind_params (names : list string) (args : list ctor_arg)
    (kwargs : gmap string ctor_arg) : result (list ctor_arg) :=
  match names with
  | [] =>
      match args with
      | [] => if bool_decide (kwargs = ∅) then Ok []
              else Raise (TypeError "got an unexpected keyword argument")
      | _ :: _ => Raise (TypeError "takes exactly 6 arguments")
      end
  | name :: names' =>
      match args with
      | a :: args' =>
          match kwargs !! name with
          | Some _ => Raise (TypeError "got multiple values for keyword argument")
          | None => rest <-r bind_params names' args' kwargs ;; Ok (a :: rest)
          end
      | [] =>
          match kwargs !! name with
          | Some a => rest <-r bind_params names' [] (delete name kwargs) ;; Ok (a :: rest)
          | None => Raise (TypeError "takes exactly 6 arguments")
          end
      end
  end.

(** The call [BaseEnvironment.__init__(self, *args, **kwargs)].  An
    argument of a kind the constructor cannot use is rejected here. *)
Definition call_BaseEnvironment___init__ (args : list ctor_arg)
    (kwargs : gmap string ctor_arg) : M Env :=
  bound <- lift (bind_params
                   ["test_paths"; "ssl_env"; "pause_after_test"; "debug_info"; "options"]
                   args kwargs) ;;
  match bound with
  | [ArgTestPaths tp; ArgSslEnv e; ArgVal (PyBool p); d; o] =>
      match d, o with
      | ArgDebugInfo d', ArgOptions o' => BaseEnvironment___init__ tp e p (Some d') (Some o')
      | ArgDebugInfo d', ArgVal PyNone => BaseEnvironment___init__ tp e p (Some d') None
      | ArgVal PyNone, ArgOptions o' => BaseEnvironment___init__ tp e p None (Some o')
      | ArgVal PyNone, ArgVal PyNone => BaseEnvironment___init__ tp e p None None
      | _, _ => raise (TypeError "unusable argument")
      end
  | _ => raise (TypeError "unusable argument")
  end.

(** ** [LocalServerEnvironment] (lines 118-235) *)

Definition LocalServerEnvironment___init__ `{OsPath}
    (args : list ctor_arg) (kwargs : gmap string ctor_arg) : M Env :=
  let locals : gmap string pyobj :=
    <[ "self" := ObjSelf ]> (<[ "args" := ObjTuple args ]>
                             {[ "kwargs" := ObjMapping kwargs ]}) in
  (* BaseEnvironment.__init__(self, *args, **kwawrgs) *)
  _ <- lift (load_name locals "BaseEnvironment") ;;
  _ <- lift (load_name locals "self") ;;
  a <- lift (load_name locals "args") ;;
  k <- lift (load_name locals "kwawrgs") ;;
  a <- lift (star_args a) ;;
  k <- lift (star_kwargs k) ;;
  self <- call_BaseEnvironment___init__ a k ;;
  (* self.routes = self.get_routes() *)
  r <- lift (get_routes self) ;;
  ret (set_routes r self).

Definition ignore_interrupts (self : Env) : M unit :=
  emit (EvSignal SIG_IGN) ;;
  modify (set_sigint SIG_IGN).

Definition process_interrupts (self : Env) : M unit :=
  emit (EvSignal SIG_DFL) ;;
  modify (set_sigint SIG_DFL).

(** Lines 182-196; what [serve.set_logger] raises is swallowed. *)
Definition setup_server_logging (self : Env) : M unit :=
  w <- get_world ;;
  (if default_logger w then ret tt else raise AssertionError) ;;
  emit EvSetupServerLogging.

(** All processes of [self.servers]. *)
Definition server_procs (s : servers_t) : list proc :=
  flat_map (fun entry => map snd (snd entry)) s.

(** The condition of line 131. *)
Definition debugger_attached (self : Env) : bool :=
  py_truthy (dict_get (options self) "supports_debugger" PyNone)
  && match debug_info self with
     | Some d => interactive d
     | None => false
     end.

Definition LocalServerEnvironment___enter__ `{OsPath, Json, StringFormat, Serve}
    (self : Env) : M Env :=
  _ <- BaseEnvironment___enter__ self ;;
  emit EvSslEnter ;;
  setup_server_logging self ;;
  cfg <- load_config self ;;
  (* serve.set_computed_defaults updates the configuration in place *)
  cfg <- lift (set_computed_defaults cfg) ;;
  emit EvSetComputedDefaults ;;
  let self := set_config cfg self in
  r <- lift (get_routes self) ;;
  started <- lift (serve_start cfg (self_ssl_env self) r) ;;
  emit EvServeStart ;;
  modify (fun w => set_alive (alive w ∪ list_to_set (server_procs started.2)) w) ;;
  let self := set_servers started.2 (set_external_config started.1 self) in
  (if debugger_attached self then ignore_interrupts self else ret tt) ;;
  ret self.

(** [self.servers] *)
Definition get_servers (self : Env) : M servers_t :=
  match servers self with
  | Some s => ret s
  | None => raise (AttributeError "object has no attribute 'servers'")
  end.

(** [server.kill()] *)
Definition kill (p : proc) : M unit :=
  emit (EvKill p) ;;
  modify (fun w => set_alive (alive w ∖ {[ p ]}) w).

(** Lines 137-142: what [__exit__] does after the call of the base class. *)
Definition LocalServerEnvironment___exit___after_base
    (self : Env) (exc_type exc_val exc_tb : pyval) : M unit :=
  process_interrupts self ;;
  s <- get_servers self ;;
  for_each s (fun entry =>
    for_each (snd entry) (fun port_server => kill (snd port_server))) ;;
  emit (EvSslExit (ExcInfo exc_type exc_val exc_tb)).

Definition LocalServerEnvironment___exit__
    (self : Env) (exc_type exc_val exc_tb : pyval) : M unit :=
  (* BaseEnvironment.__exit__(self) *)
  call_BaseEnvironment___exit__ self [] ;;
  LocalServerEnvironment___exit___after_base self exc_type exc_val exc_tb.

(** ["%s server on port %d failed to start" % (scheme, port)] *)
Definition failed_to_start (scheme : string) (port : Z) : string :=
  scheme ++ " server on port " ++ NilZero.string_of_int (Z.to_int port)
         ++ " failed to start".

(** A port that a socket address can hold. *)
Definition valid_port (port : Z) : bool := (0 <=? port) && (port <=? 65535).

(** [s.connect((host, port))]: the address is checked first, a host that
    is not a string is a [TypeError] and a port outside 0..65535 an
    [OverflowError]; only then the connection is tried, and a refusal is
    a [socket.error]. *)
Definition connect (host : pyval) (port : Z) : M unit :=
  emit (EvConnect host port) ;;
  match host with
  | PyStr _ =>
      if valid_port port then
        w <- get_world ;;
        if accepting w host port then ret tt else raise SocketError
      else raise (OverflowError "getsockaddrarg: port must be 0-65535.")
  | _ => raise (TypeError "getsockaddrarg() argument 1 must be string")
  end.

(** [server.is_alive()] *)
Definition is_alive (p : proc) : M bool :=
  emit (EvIsAlive p) ;;
  w <- get_world ;;
  ret (bool_decide (p ∈ alive w)).

(** The body of the inner loop (lines 224-235). *)
Definition check_server (self : Env) (scheme : string) (port : Z) (server : proc) : M unit :=
  (if py_truthy (test_server_port self) then
     emit EvSocket ;;
     try_finally
       (try_except
          (host <- lift (py_getitem (config self) "host") ;;
           connect host port)
          (fun e => match e with
                    | SocketError => Some (raise (EnvironmentError (failed_to_start scheme port)))
                    | _ => None
                    end))
       (emit EvSocketClose)
   else ret tt) ;;
  a <- is_alive server ;;
  if negb a then raise (EnvironmentError (failed_to_start scheme port)) else ret tt.

Definition LocalServerEnvironment_ensure_started (self : Env) : M unit :=
  emit (EvSleep 2) ;;
  s <- get_servers self ;;
  for_each s (fun entry =>
    for_each (snd entry) (fun port_server =>
      check_server self (fst entry) (fst port_server) (snd port_server))).

(** ** The documented mapping from [ssl_type] to keyword names *)

(** The mapping as documented: [openssl] needs [openssl_binary],
    [pregenerated] needs the three certificate paths, anything else needs
    nothing. *)
Definition required_keys (ssl_type : pyval) : gset string :=
  match ssl_type with
  | PyStr s =>
      if decide (s = "openssl") then {[ "openssl_binary" ]}
      else if decide (s = "pregenerated") then
             {[ "host_key_path"; "host_cert_path"; "ca_cert_path" ]}
      else ∅
  | _ => ∅
  end.

(** What the base constructor leaves in the world: the cache manager and
    the stash object are created, nothing else changes. *)
Definition after_base_init (w : World) : World :=
  add_log EvStashCreated (add_log EvManagerCreated w).

(** ** Acquisition and release of resources *)

Inductive resource : Type :=
| RCacheManager
| RStash
| RSslEnv
| RServers
| RInterrupts.

(** The resource an event acquires, if any. *)
Definition acquires (e : event) : option resource :=
  match e with
  | EvCacheManagerEnter => Some RCacheManager
  | EvStashEnter => Some RStash
  | EvSslEnter => Some RSslEnv
  | EvServeStart => Some RServers
  | EvSignal SIG_IGN => Some RInterrupts
  | _ => None
  end.

(** The resource an event releases, if any. *)
Definition releases (e : event) : option resource :=
  match e with
  | EvCacheManagerExit _ => Some RCacheManager
  | EvStashExit => Some RStash
  | EvSslExit _ => Some RSslEnv
  | EvKill _ => Some RServers
  | EvSignal SIG_DFL => Some RInterrupts
  | _ => None
  end.

Definition acquisitions (l : list event) : list resource := omap acquires l.
Definition released (l : list event) : list resource := omap releases l.

(** The world after [server.kill()] on each process of [ps], in order. *)
Definition kill_all (ps : list proc) (w : World) : World :=
  fold_left (fun w p => set_alive (alive w ∖ {[ p ]}) (add_log (EvKill p) w)) ps w.

(** ** A concrete environment

    One instance of each collaborator interface and one environment, used
    to run the methods on concrete data. *)

Definition sample_sslutils : SslUtils :=
  {| environments := {[ "none"; "openssl"; "pregenerated" ]} |}.

Definition sample_ospath : OsPath :=
  {| here := "/wptrunner";
     os_path_join := fun a b =>
       match b with
       | String "/" _ => b
       | _ => a ++ "/" ++ b
       end;
     os_path_normpath := fun p => p |}.

(** The configuration documents the sample parser knows. *)
Definition sample_default_config : pyval :=
  PyDict (<[ "host" := PyStr "localhost" ]>
          (<[ "ports" := PyDict (<[ "http" := PyList [PyInt 8000] ]>
                                 {[ "https" := PyList [PyInt 8443] ]}) ]>
           {[ "ssl" := PyDict ∅ ]})).

Definition sample_local_config : pyval :=
  PyDict (<[ "host" := PyStr "web-platform.test" ]>
          (<[ "ports" := PyDict (<[ "http" := PyList [PyInt 8000; PyInt 8001] ]>
                                 {[ "https" := PyList [PyInt 8443] ]}) ]>
           {[ "ssl" := PyDict ∅ ]})).

Definition sample_json : Json :=
  {| json_loads := fun text =>
       if String.eqb text "default document" then Some sample_default_config
       else if String.eqb text "local document for web-platform.test"
            then Some sample_local_config
       else None |}.

Definition sample_format : StringFormat :=
  {| format_conversion := fun v rest =>
       match v, rest with
       | PyStr s, String "s" _ => Ok (s, 1%nat)
       | _, _ => Raise (ValueError "unsupported format character")
       end;
     format_positional := fun _ _ =>
       Raise (TypeError "not enough arguments for format string") |}.

Definition sample_servers : servers_t :=
  [ ("http", [(8000, 1%positive); (8001, 2%positive)]);
    ("https", [(8443, 3%positive)]) ].

Definition sample_serve : Serve :=
  {| merge_json := fun base override =>
       match base, override with
       | PyDict b, PyDict o => Ok (PyDict (o ∪ b))
       | _, _ => Raise (AttributeError "object has no attribute 'iteritems'")
       end;
     set_computed_defaults := fun cfg => Ok cfg;
     subdomain_hosts := fun host =>
       match host with
       | PyStr h => Ok [PyStr ("www." ++ h)]
       | _ => Ok []
       end;
     serve_start := fun cfg _ _ => Ok (cfg, sample_servers) |}.

Definition sample_ssl_env : SslEnv :=
  {| ssl_enabled := false;
     host_cert_path := fun _ => Ok (PyNone, PyNone) |}.

Definition sample_test_paths : gmap string path_descriptor :=
  <[ "/" := PathDescriptor "/tests" ∅ ]>
  {[ "/sub/" := PathDescriptor "/more-tests" ∅ ]}.

Definition sample_options : gmap string pyval :=
  <[ "host" := PyStr "web-platform.test" ]>
  (<[ "supports_debugger" := PyBool true ]>
   {[ "external_config" := PyDict {[ "host" := PyStr "remote.test" ]} ]}).

(** An environment as the base constructor leaves it, with an
    interactive debugger. *)
Definition sample_env : Env :=
  mkEnv sample_test_paths sample_ssl_env PyNone PyNone false (PyBool true)
        (Some {| interactive := true |}) sample_options None None.

Definition sample_files : gmap string string :=
  <[ "/tests/config.default.json" := "default document" ]>
  {[ "/wptrunner/config.json" := "local document for %(host)s" ]}.

Definition sample_world : World :=
  mkWorld SIG_DFL ∅ sample_files (fun _ _ => true) true [].

(** The configuration expected from [load_config] on the sample. *)
Definition sample_loaded_config : pyval :=
  PyDict
    (<[ "certificate" := PyNone ]>
     (<[ "key_file" := PyNone ]>
      (<[ "ports" := PyDict (<[ "https" := PyList [PyNone] ]>
                             (<[ "http" := PyList [PyInt 8000; PyInt 8001] ]>
                              {[ "https" := PyList [PyInt 8443] ]})) ]>
       (<[ "doc_root" := PyStr "/tests" ]>
        (<[ "external_host" := PyNone ]>
         (<[ "ssl" := PyDict {[ "encrypt_after_connect" := PyBool false ]} ]>
          (<[ "host" := PyStr "web-platform.test" ]>
           {[ "ports" := PyDict (<[ "http" := PyList [PyInt 8000; PyInt 8001] ]>
                                 {[ "https" := PyList [PyInt 8443] ]}) ]}))))))).

(** The sample environment and world after [__enter__]. *)
Definition sample_entered : result Env * World :=
  @LocalServerEnvironment___enter__ sample_ospath sample_json sample_format
    sample_serve sample_env sample_world.

(** The class name of the exception a run ended with, if it raised. *)
Definition exn_class_of {A} (r : result A) : option string :=
  match r with
  | Ok _ => None
  | Raise e => Some (exn_class e)
  end.

(** The environment returned by [__enter__] on the sample. *)
Definition sample_self : Env :=
  match fst sample_entered with
  | Ok self => self
  | Raise _ => sample_env
  end.

(** Leaving the entered sample environment without a pending exception. *)
Definition sample_left : result unit * World :=
  LocalServerEnvironment___exit__ sample_self PyNone PyNone PyNone (snd sample_entered).

(** ** The routes expected from [get_routes] *)

(** The mount point of one entry of [test_paths]: the key is the URL
    prefix, [tests_path] is the directory. *)
Definition mount_of (item : string * path_descriptor) : Route :=
  MountPoint (fst item) (Some (tests_path (snd item))).

(** The entries of [test_paths] other than the root, in iteration order. *)
Definition non_root_items (tp : gmap string path_descriptor)
  : list (string * path_descriptor) :=
  filter (fun item => fst item <> "/") (map_to_list tp).

Definition is_static (r : Route) : bool :=
  match r with
  | StaticRoute _ _ _ _ => true
  | MountPoint _ _ => false
  end.

(** ** What [ensure_started] is expected to do *)

(** The servers of [self.servers] in the order the two loops visit them. *)
Definition flat_servers (s : servers_t) : list (string * Z * proc) :=
  flat_map (fun entry => map (fun ps => (fst entry, fst ps, snd ps)) (snd entry)) s.

(** The host of a socket address is a string. *)
Definition is_str (v : pyval) : bool :=
  match v with PyStr _ => true | _ => false end.

(** [s.connect((host, port))] returns normally: the address is well
    formed and the connection is accepted. *)
Definition connect_ok (w : World) (host : pyval) (port : Z) : bool :=
  is_str host && valid_port port && accepting w host port.

(** The TCP probe is made and does not succeed. *)
Definition probe_fails (self : Env) (w : World) (host : pyval)
    (t : string * Z * proc) : bool :=
  py_truthy (test_server_port self) && negb (connect_ok w host (snd (fst t))).

(** The process is not alive. *)
Definition not_alive (w : World) (t : string * Z * proc) : bool :=
  negb (bool_decide (snd t ∈ alive w)).

(** One of the two checks of a server fails. *)
Definition check_fails (self : Env) (w : World) (host : pyval)
    (t : string * Z * proc) : bool :=
  probe_fails self w host t || not_alive w t.

(** The calls made for one server: the probe unless it is switched off,
    then the aliveness check unless the probe was refused. *)
Definition check_events (self : Env) (w : World) (host : pyval)
    (t : string * Z * proc) : list event :=
  ((if py_truthy (test_server_port self)
    then [EvSocket; EvConnect host (snd (fst t)); EvSocketClose] else [])
   ++ (if probe_fails self w host t then [] else [EvIsAlive (snd t)]))%list.

(** The exception of a probe that does not succeed: that of a malformed
    address, or [EnvironmentError] for a refused connection. *)
Definition probe_exn (host : pyval) (scheme : string) (port : Z) : exn :=
  if negb (is_str host) then TypeError "getsockaddrarg() argument 1 must be string"
  else if negb (valid_port port) then OverflowError "getsockaddrarg: port must be 0-65535."
  else EnvironmentError (failed_to_start scheme port).

(** The exception of a server whose check fails. *)
Definition check_exn (self : Env) (w : World) (host : pyval)
    (t : string * Z * proc) : exn :=
  if probe_fails self w host t then probe_exn host (fst (fst t)) (snd (fst t))
  else EnvironmentError (failed_to_start (fst (fst t)) (snd (fst t))).

(** The servers that get checked: all up to and including the first one
    with a failing check. *)
Fixpoint visited {A} (fails : A -> bool) (l : list A) : list A :=
  match l with
  | [] => []
  | t :: l' => t :: (if fails t then [] else visited fails l')
  end.

Definition add_events (evs : list event) (w : World) : World :=
  fold_left (fun w e => add_log e w) evs w.

Definition is_connect (e : event) : bool :=
  match e with EvConnect _ _ => true | _ => false end.
Definition is_socket (e : event) : bool :=
  match e with EvSocket => true | _ => false end.
Definition is_is_alive (e : event) : bool :=
  match e with EvIsAlive _ => true | _ => false end.

(** How many events of a list satisfy [p]. *)
Definition count_events (p : event -> bool) (evs : list event) : nat :=
  length (List.filter p evs).

(** ** Templates *)

(** A text without a percent sign. *)
Fixpoint plain (s : string) : bool :=
  match s with
  | EmptyString => true
  | String c rest => negb (Ascii.eqb c "%") && plain rest
  end.

(** A mapping key as [%] reads it: every parenthesis opened inside the
    key is closed inside it; [depth] counts those still open. *)
Fixpoint nested (s : string) (depth : nat) : bool :=
  match s with
  | EmptyString => match depth with O => true | S _ => false end
  | String c rest =>
      if Ascii.eqb c ")" then
        match depth with
        | O => false
        | S d => nested rest d
        end
      else if Ascii.eqb c "(" then nested rest (S depth)
      else nested rest depth
  end.

(** [scans opts s skip s']: interpolating [s], of which the first [skip]
    characters belong to a directive already handled, gets without an
    error to the point where [s'] is left and a new character is looked
    at. *)
Inductive scans `{StringFormat} (opts : gmap string pyval)
  : string -> nat -> string -> Prop :=
| scans_here s : scans opts s 0 s
| scans_skip c s k s' :
    scans opts s k s' -> scans opts (String c s) (S k) s'
| scans_literal c s s' :
    Ascii.eqb c "%" = false -> scans opts s 0 s' -> scans opts (String c s) 0 s'
| scans_directive s d s' :
    directive s opts = Ok d -> scans opts s (snd d) s' ->
    scans opts (String "%" s) 0 s'.

(** The sample files with a local template that names two options, of
    which the sample options have only the first. *)
Definition sample_files_two_keys : gmap string string :=
  <[ "/tests/config.default.json" := "default document" ]>
  {[ "/wptrunner/config.json" := "local document for %(host)s on %(bind_hostname)s" ]}.

Definition sample_world_two_keys : World :=
  mkWorld SIG_DFL ∅ sample_files_two_keys (fun _ _ => true) true [].

(** A mapping key without parentheses. *)
Fixpoint no_paren (s : string) : bool :=
  match s with
  | EmptyString => true
  | String c rest => negb (Ascii.eqb c ")") && negb (Ascii.eqb c "(") && no_paren rest
  end.

(** The sample world with the default configuration file missing, and
    the sample world in which the process of port 8001 has died. *)
Definition sample_world_no_default : World :=
  mkWorld SIG_DFL ∅ (delete "/tests/config.default.json" sample_files)
          (fun _ _ => true) true [].


(** The sample environment with its configuration loaded and its
    servers started. *)
Definition sample_started : Env :=
  set_servers sample_servers (set_config sample_default_config sample_env).

Definition set_options (o : gmap string pyval) (e : Env) : Env :=
  mkEnv (test_paths e) (self_ssl_env e) (config e) (external_config e) (pause_after_test e)
        (test_server_port e) (debug_info e) o (routes e) (servers e).

(** Options that select the pregenerated certificates. *)
Definition sample_ssl_options : gmap string pyval :=
  <[ "ssl_type" := PyStr "pregenerated" ]>
  (<[ "host_key_path" := PyStr "/certs/web-platform.test.key" ]>
   (<[ "host_cert_path" := PyStr "/certs/web-platform.test.pem" ]>
    (<[ "ca_cert_path" := PyStr "/certs/cacert.pem" ]>
     {[ "openssl_binary" := PyStr "openssl" ]}))).

(** Methods that leave the world alone. *)
Definition world_preserving {A} (m : M A) : Prop := forall w, snd (m w) = w.

(** ** Module constants (lines 23-31) *)

Definition subdomains : list string :=
  [ ""; "www"; "www1"; "www2";
    "xn--n8j6ds53lwwkrqhv28a.web-platform.test";
    "xn--lve-6lad.web-platform.test" ].

Definition host : string := "web-platform.test".

(** ["%s.%s" % (item, host) if item else host] *)
Definition hostname_of (a_host item : string) : string :=
  if String.eqb item "" then a_host else item ++ "." ++ a_host.

(** The list comprehension of line 31, for any host and list of subdomains. *)
Definition hostnames_for (a_host : string) (a_subdomains : list string) : list string :=
  map (hostname_of a_host) a_subdomains.

Definition hostnames : list string := hostnames_for host subdomains.

(** ** [do_delayed_imports] (lines 34-56) *)

(** The part of the interpreter that [do_delayed_imports] touches:
    [sys.path], the module globals [serve] and [sslutils] (bound to a
    module or still [None]) and the messages given to [logger.critical]. *)
Record Interpreter : Type := mkInterpreter {
  sys_path : list string;
  serve_bound : bool;
  sslutils_bound : bool;
  critical_log : list string
}.

(** How a call of a function that may end the process comes back. *)
Inductive outcome : Type :=
| Returned
| Exited (status : Z)                   (* SystemExit raised by sys.exit *)
| Raised (e : exn).

(** Whether an import statement succeeds under a given [sys.path]; a
    failure is an [ImportError].  What the imported modules do when they
    are loaded is not modelled: an import only binds its name. *)
Class Importer : Type := {
  importable : list string -> string -> bool
}.

(** [", ".join(names)] *)
Definition join_comma (names : list string) : string := String.concat ", " names.

(** The message of lines 54-55. *)
Definition import_failure_message (failed : list string) (serve_root : string) : string :=
  "Failed to import " ++ join_comma failed ++ ". Ensure that tests path "
    ++ serve_root ++ " contains web-platform-tests".

Definition do_delayed_imports `{Importer}
    (a_test_paths : gmap string path_descriptor) (st : Interpreter)
  : outcome * Interpreter :=
  match serve_path a_test_paths with
  | Raise e => (Raised e, st)
  | Ok serve_root =>
      (* sys.path.insert(0, serve_root) *)
      let path := serve_root :: sys_path st in
      let failed : list string := [] in
      (* from tools.serve import serve *)
      let serve_ok := importable path "tools.serve" in
      let failed := if serve_ok then failed else (failed ++ ["serve"])%list in
      (* import sslutils *)
      let sslutils_ok := importable path "sslutils" in
      let failed := if sslutils_ok then failed else (failed ++ ["sslutils"])%list in
      let st' := mkInterpreter path
                   (serve_ok || serve_bound st)
                   (sslutils_ok || sslutils_bound st)
                   (critical_log st) in
      match failed with
      | [] => (Returned, st')
      | _ :: _ =>
          (Exited 1,
           mkInterpreter (sys_path st') (serve_bound st') (sslutils_bound st')
             (critical_log st' ++ [import_failure_message failed serve_root]))
      end
  end.

Definition is_close (e : event) : bool :=
  match e with EvSocketClose => true | _ => false end.

(** An importer under which [tools.serve] can be imported once the tests
    are on the path, and [sslutils] cannot. *)
Definition sample_importer : Importer :=
  {| importable := fun path name =>
       bool_decide ("/tests" ∈ path) && String.eqb name "tools.serve" |}.

Definition sample_interpreter : Interpreter :=
  mkInterpreter ["/usr/lib/python2.7"] false false [].

(** ** The options [get_ssl_kwargs] reads, in the order it reads them *)

Definition required_order (ssl_type : pyval) : list string :=
  if py_eq_str ssl_type "openssl" then ["openssl_binary"]
  else if py_eq_str ssl_type "pregenerated" then
         ["host_key_path"; "host_cert_path"; "ca_cert_path"]
  else [].

(** The option [key] is not given. *)
Definition missing (kwargs : gmap string pyval) (key : string) : bool :=
  match kwargs !! key with
  | Some _ => false
  | None => true
  end.

(** Options for the [openssl] kind, with unrelated options beside them. *)
Definition sample_openssl_options : gmap string pyval :=
  <[ "ssl_type" := PyStr "openssl" ]>
  (<[ "openssl_binary" := PyStr "openssl" ]>
   {[ "host_key_path" := PyNone ]}).

Definition sample_openssl_options' : gmap string pyval :=
  <[ "ssl_type" := PyStr "openssl" ]>
  (<[ "openssl_binary" := PyStr "openssl" ]>
   (<[ "host_key_path" := PyStr "/certs/other.key" ]>
    {[ "external_host" := PyStr "example.org" ]})).


(** The sockets of a list of calls are all closed again, and no more
    connections are made than sockets were opened. *)
Definition sockets_balanced (evs : list event) : Prop :=
  count_events is_socket evs = count_events is_close evs
  /\ (count_events is_connect evs <= count_events is_socket evs)%nat.

(** The sample world with the three sample processes alive. *)
Definition sample_world_all_alive : World :=
  mkWorld SIG_DFL {[ 1%positive; 2%positive; 3%positive ]} sample_files
          (fun _ _ => true) true [].

(** * Properties *)

(** ** Keyword arguments of the SSL environment *)

Lemma py_eq_str_true v lit : py_eq_str v lit = true <-> v = PyStr lit.
Proof.
  destruct v; simpl; try (split; [discriminate | congruence]).
  rewrite String.eqb_eq. split; congruence.
Qed.

Lemma kw_getitem_Some kwargs key v :
  kwargs !! key = Some v -> kw_getitem kwargs key = Ok v.
Proof. unfold kw_getitem. now intros ->. Qed.

Lemma kw_getitem_Ok kwargs key v :
  kw_getitem kwargs key = Ok v -> kwargs !! key = Some v.
Proof. unfold kw_getitem. destruct (kwargs !! key); congruence. Qed.

Lemma kw_getitem_is_ok kwargs key :
  is_ok (kw_getitem kwargs key) = true <-> key ∈ dom kwargs.
Proof.
  unfold kw_getitem. rewrite elem_of_dom.
  destruct (kwargs !! key) eqn:E; simpl; split; intros Hx; eauto; try discriminate.
  destruct Hx; discriminate.
Qed.

(** The documented mapping, phrased with the comparisons of the code. *)
Lemma required_keys_eq ssl_type :
  required_keys ssl_type =
    if py_eq_str ssl_type "openssl" then {[ "openssl_binary" ]}
    else if py_eq_str ssl_type "pregenerated" then
           {[ "host_key_path"; "host_cert_path"; "ca_cert_path" ]}
    else ∅.
Proof.
  destruct ssl_type; simpl; try reflexivity.
  repeat case_decide; subst; simpl; try reflexivity.
  destruct (String.eqb_spec s "openssl"); [done|].
  destruct (String.eqb_spec s "pregenerated"); done.
Qed.

Lemma in_dom_lookup (kwargs : gmap string pyval) key :
  key ∈ dom kwargs -> kwargs !! key = None -> False.
Proof. intros [v Hv]%elem_of_dom Hn. congruence. Qed.

(** C7: the keyword arguments handed to the SSL environment class are
    fixed by [ssl_type] alone.  For an option mapping with [ssl_type],
    [get_ssl_kwargs] succeeds exactly when the names documented for that
    [ssl_type] are present; the mapping it returns has exactly those
    names ([openssl_binary] for [openssl]; [host_key_path],
    [host_cert_path], [ca_cert_path] for [pregenerated]; none otherwise),
    each with the value of the option; [ssl_env] passes that mapping,
    unchanged, to the class registered under [ssl_type]; and the name
    sets of two different [ssl_type] values are disjoint. *)
Theorem ssl_kwargs_determined_by_ssl_type `{SslUtils}
    (kwargs : gmap string pyval) (ssl_type : pyval) :
  kwargs !! "ssl_type" = Some ssl_type ->
  (is_ok (get_ssl_kwargs kwargs) = true <-> required_keys ssl_type ⊆ dom kwargs)
  /\ (forall args, get_ssl_kwargs kwargs = Ok args ->
        dom args = required_keys ssl_type /\ args ⊆ kwargs)
  /\ (forall cls args, ssl_env kwargs = Ok (cls, args) ->
        ssl_type = PyStr cls /\ get_ssl_kwargs kwargs = Ok args)
  /\ (forall other, required_keys other <> required_keys ssl_type ->
        required_keys other ## required_keys ssl_type).
Proof.
  intros Hty.
  assert (get_ssl_kwargs kwargs =
    if py_eq_str ssl_type "openssl" then
      openssl_binary <-r kw_getitem kwargs "openssl_binary" ;;
      Ok {[ "openssl_binary" := openssl_binary ]}
    else if py_eq_str ssl_type "pregenerated" then
      host_key_path <-r kw_getitem kwargs "host_key_path" ;;
      host_cert_path <-r kw_getitem kwargs "host_cert_path" ;;
      ca_cert_path <-r kw_getitem kwargs "ca_cert_path" ;;
      Ok (<[ "host_key_path" := host_key_path ]>
          (<[ "host_cert_path" := host_cert_path ]>
           {[ "ca_cert_path" := ca_cert_path ]}))
    else Ok ∅) as Hc.
  { unfold get_ssl_kwargs. rewrite (kw_getitem_Some _ _ _ Hty). simpl.
    destruct (py_eq_str ssl_type "openssl"); reflexivity. }
  split; [|split; [|split]].
  - rewrite Hc, required_keys_eq.
    destruct (py_eq_str ssl_type "openssl"); [|destruct (py_eq_str ssl_type "pregenerated")].
    + unfold kw_getitem.
      destruct (kwargs !! "openssl_binary") eqn:E; simpl.
      * split; [|done]. intros _ k Hk. apply elem_of_singleton in Hk as ->.
        apply elem_of_dom. eauto.
      * split; [done|]. intros Hs. exfalso.
        apply (in_dom_lookup kwargs "openssl_binary"); [set_solver | done].
    + unfold kw_getitem.
      destruct (kwargs !! "host_key_path") eqn:E1; simpl.
      2:{ split; [done|]. intros Hs. exfalso.
          apply (in_dom_lookup kwargs "host_key_path"); [set_solver | done]. }
      destruct (kwargs !! "host_cert_path") eqn:E2; simpl.
      2:{ split; [done|]. intros Hs. exfalso.
          apply (in_dom_lookup kwargs "host_cert_path"); [set_solver | done]. }
      destruct (kwargs !! "ca_cert_path") eqn:E3; simpl.
      2:{ split; [done|]. intros Hs. exfalso.
          apply (in_dom_lookup kwargs "ca_cert_path"); [set_solver | done]. }
      split; [|done]. intros _ k Hk.
      apply elem_of_dom.
      apply elem_of_union in Hk as [Hk|Hk]; [apply elem_of_union in Hk as [Hk|Hk]|];
        apply elem_of_singleton in Hk as ->; eauto.
    + simpl. split; [set_solver | done].
  - intros args. rewrite Hc, required_keys_eq.
    destruct (py_eq_str ssl_type "openssl"); [|destruct (py_eq_str ssl_type "pregenerated")].
    + destruct (kw_getitem kwargs "openssl_binary") eqn:E; simpl; [|done].
      apply kw_getitem_Ok in E. intros [= <-]. split.
      * by rewrite dom_singleton_L.
      * by apply map_singleton_subseteq_l.
    + destruct (kw_getitem kwargs "host_key_path") eqn:E1; simpl; [|done].
      destruct (kw_getitem kwargs "host_cert_path") eqn:E2; simpl; [|done].
      destruct (kw_getitem kwargs "ca_cert_path") eqn:E3; simpl; [|done].
      apply kw_getitem_Ok in E1, E2, E3. intros [= <-]. split.
      * rewrite !dom_insert_L, dom_singleton_L. set_solver.
      * apply insert_subseteq_l; [done|]. apply insert_subseteq_l; [done|].
        by apply map_singleton_subseteq_l.
    + intros [= <-]; split; [by rewrite dom_empty_L | apply map_empty_subseteq].
  - intros cls args. unfold ssl_env, environments_getitem.
    rewrite (kw_getitem_Some _ _ _ Hty). simpl.
    destruct ssl_type; simpl; try done.
    case_bool_decide; simpl; [|done].
    destruct (get_ssl_kwargs kwargs); simpl; [|done].
    by intros [= <- <-].
  - intros other Hne. revert Hne. rewrite !required_keys_eq.
    destruct (py_eq_str other "openssl"), (py_eq_str other "pregenerated"),
      (py_eq_str ssl_type "openssl"), (py_eq_str ssl_type "pregenerated");
      intros Hne; try congruence;
      first [ apply disjoint_empty_l | apply disjoint_empty_r | idtac ];
      apply elem_of_disjoint; intros x;
      rewrite ?elem_of_union, ?elem_of_singleton;
      intros Hx Hy; repeat destruct Hx as [Hx|Hx]; repeat destruct Hy as [Hy|Hy];
      subst; discriminate.
Qed.

(** The witness of [ssl_kwargs_determined_by_ssl_type]: options that
    select the pregenerated certificates and also carry [openssl_binary]. *)
Lemma ssl_kwargs_determined_by_ssl_type_witness :
  sample_ssl_options !! "ssl_type" = Some (PyStr "pregenerated")
  /\ forall args, get_ssl_kwargs sample_ssl_options = Ok args ->
       dom args = {[ "host_key_path"; "host_cert_path"; "ca_cert_path" ]}.
Proof.
  split; [reflexivity|]. intros args Hargs.
  destruct (@ssl_kwargs_determined_by_ssl_type sample_sslutils sample_ssl_options
              (PyStr "pregenerated") eq_refl) as (_ & Hdom & _).
  destruct (Hdom args Hargs) as [-> _]. reflexivity.
Defined.

Example get_ssl_kwargs_sample :
  get_ssl_kwargs sample_ssl_options
  = Ok (<[ "host_key_path" := PyStr "/certs/web-platform.test.key" ]>
        (<[ "host_cert_path" := PyStr "/certs/web-platform.test.pem" ]>
         {[ "ca_cert_path" := PyStr "/certs/cacert.pem" ]}))
  /\ @ssl_env sample_sslutils sample_ssl_options
     = rbind (get_ssl_kwargs sample_ssl_options) (fun args => Ok ("pregenerated", args)).
Proof. split; reflexivity. Qed.

(** ** Constructors *)

Lemma BaseEnvironment_init_run tp ssl pause dbg opts w :
  BaseEnvironment___init__ tp ssl pause dbg (Some opts) w =
    (Ok (mkEnv tp ssl PyNone PyNone pause
               (dict_get opts "test_server_port" (PyBool true)) dbg
               (delete "test_server_port" opts) None None),
     after_base_init w).
Proof. reflexivity. Qed.

(** C8: [RemoteServerEnvironment] checks [pause_after_test] with an
    assertion: with [pause_after_test] true the constructor raises
    [AssertionError]; with [pause_after_test] false and an
    [external_config] entry in the options it returns an environment whose
    external configuration is that entry, and it starts no server: the
    only collaborator calls are the creation of the cache manager and of
    the stash object, no process is spawned and [servers] stays unset.
    (Without the entry the subscript of line 116 raises [KeyError].) *)
Theorem RemoteServerEnvironment_init_spec
    (tp : gmap string path_descriptor) (ssl : SslEnv) (pause : bool)
    (dbg : option DebugInfo) (opts : gmap string pyval) (w : World) :
  let run := RemoteServerEnvironment___init__ tp ssl pause dbg (Some opts) w in
  (pause = true -> run = (Raise AssertionError, after_base_init w))
  /\ (pause = false ->
      match opts !! "external_config" with
      | Some c =>
          exists env, run = (Ok env, after_base_init w)
                      /\ external_config env = c
                      /\ servers env = None
                      /\ config env = PyNone
      | None => run = (Raise (KeyError "external_config"), after_base_init w)
      end)
  /\ alive (snd run) = alive w
  /\ sigint (snd run) = sigint w
  /\ log (snd run) = (log w ++ [EvManagerCreated; EvStashCreated])%list.
Proof.
  assert (log (after_base_init w) = (log w ++ [EvManagerCreated; EvStashCreated])%list) as Hlog.
  { unfold after_base_init, add_log. simpl. now rewrite <- app_assoc. }
  unfold RemoteServerEnvironment___init__, bind.
  rewrite BaseEnvironment_init_run. cbn [pause_after_test options].
  destruct pause.
  - cbn. repeat split; try discriminate; exact Hlog.
  - cbn [ret raise lift]. unfold kw_getitem.
    rewrite lookup_delete_ne by discriminate.
    destruct (opts !! "external_config") as [c|] eqn:E.
    + repeat split; try discriminate; try exact Hlog.
      intros _. eexists. repeat split.
    + repeat split; try discriminate; exact Hlog.
Qed.

(** The witness of [RemoteServerEnvironment_init_spec]: the sample
    arguments, without and with [pause_after_test]. *)
Lemma RemoteServerEnvironment_init_spec_witness :
  (exists env,
     fst (RemoteServerEnvironment___init__ sample_test_paths sample_ssl_env false None
            (Some sample_options) sample_world) = Ok env
     /\ external_config env = PyDict {[ "host" := PyStr "remote.test" ]})
  /\ fst (RemoteServerEnvironment___init__ sample_test_paths sample_ssl_env true None
            (Some sample_options) sample_world) = Raise AssertionError.
Proof.
  split.
  - destruct (RemoteServerEnvironment_init_spec sample_test_paths sample_ssl_env false
                None sample_options sample_world) as (_ & Hfalse & _).
    destruct (Hfalse eq_refl) as (env & Hrun & Hext & _).
    exists env. split; [now rewrite Hrun | exact Hext].
  - destruct (RemoteServerEnvironment_init_spec sample_test_paths sample_ssl_env true
                None sample_options sample_world) as (Htrue & _).
    now rewrite (Htrue eq_refl).
Defined.

(** C9: [LocalServerEnvironment.__init__] always raises [NameError]: the
    name [kwawrgs] of line 120 is bound neither in the constructor nor in
    the module nor as a builtin, so the call of the base constructor is
    never made and no instance is returned, whatever the arguments. *)
Theorem LocalServerEnvironment_init_raises_NameError `{OsPath}
    (args : list ctor_arg) (kwargs : gmap string ctor_arg) (w : World) :
  LocalServerEnvironment___init__ args kwargs w = (Raise (NameError "kwawrgs"), w)
  /\ forall env w', LocalServerEnvironment___init__ args kwargs w <> (Ok env, w').
Proof.
  assert (LocalServerEnvironment___init__ args kwargs w
          = (Raise (NameError "kwawrgs"), w)) as Hrun.
  { unfold LocalServerEnvironment___init__, bind, lift, load_name.
    rewrite !lookup_insert_ne by discriminate.
    rewrite lookup_singleton_ne by discriminate.
    rewrite lookup_insert_eq.
    rewrite lookup_insert_ne by discriminate.
    rewrite lookup_insert_eq.
    rewrite !lookup_insert_ne by discriminate.
    rewrite lookup_singleton_ne by discriminate.
    reflexivity. }
  split; [exact Hrun|]. intros env w'. rewrite Hrun. discriminate.
Qed.

(** ** Leaving an environment *)

(** C10: [LocalServerEnvironment.__exit__] calls the base [__exit__]
    with [self] alone; the three exception arguments are missing, so the
    call raises [TypeError] and the method stops there: the world is
    left as it was, so the handler of SIGINT is not restored, no server
    process is killed and the SSL environment is not exited. *)
Theorem LocalServerEnvironment_exit_raises_TypeError
    (self : Env) (exc_type exc_val exc_tb : pyval) (w : World) :
  exists msg,
    LocalServerEnvironment___exit__ self exc_type exc_val exc_tb w
      = (Raise (TypeError msg), w).
Proof. eexists. reflexivity. Qed.

Example sample_enter_ok :
  is_ok (fst sample_entered) = true
  /\ sigint (snd sample_entered) = SIG_IGN
  /\ acquisitions (log (snd sample_entered))
     = [RCacheManager; RStash; RSslEnv; RServers; RInterrupts].
Proof. vm_compute. repeat split. Qed.

Lemma kill_all_app ps qs w : kill_all (ps ++ qs) w = kill_all qs (kill_all ps w).
Proof. apply fold_left_app. Qed.

Lemma kill_all_log ps w : log (kill_all ps w) = (log w ++ map EvKill ps)%list.
Proof.
  revert w. induction ps as [|p ps IH]; intros w; simpl.
  - now rewrite app_nil_r.
  - unfold kill_all in *. simpl. rewrite IH. simpl.
    now rewrite <- app_assoc.
Qed.

Lemma kill_all_alive ps w : alive (kill_all ps w) = alive w ∖ list_to_set ps.
Proof.
  revert w. induction ps as [|p ps IH]; intros w; simpl.
  - now rewrite difference_empty_L.
  - unfold kill_all in *. simpl. rewrite IH. simpl.
    apply set_eq. intros x.
    rewrite !elem_of_difference, elem_of_union, elem_of_singleton. tauto.
Qed.

Lemma kill_all_sigint ps w : sigint (kill_all ps w) = sigint w.
Proof.
  revert w. induction ps as [|p ps IH]; intros w; simpl; [done|].
  unfold kill_all in *. simpl. now rewrite IH.
Qed.

(** The inner loop of [__exit__] kills the processes of one scheme. *)
Lemma for_each_kill (l : list (Z * proc)) w :
  for_each l (fun port_server => kill (snd port_server)) w
  = (Ok tt, kill_all (map snd l) w).
Proof.
  revert w. induction l as [|[port p] l IH]; intros w; [reflexivity|].
  simpl. unfold bind at 1. unfold kill at 1, bind, emit, modify.
  now rewrite IH.
Qed.

(** The outer loop of [__exit__] kills every process of [self.servers]. *)
Lemma for_each_scheme_kill (s : servers_t) w :
  for_each s (fun entry =>
    for_each (snd entry) (fun port_server => kill (snd port_server))) w
  = (Ok tt, kill_all (server_procs s) w).
Proof.
  revert w. induction s as [|[scheme l] s IH]; intros w; [reflexivity|].
  simpl. unfold bind at 1. rewrite for_each_kill. rewrite IH.
  unfold server_procs. simpl. now rewrite kill_all_app.
Qed.

(** The statements after the base call, run from [w]. *)
Lemma after_base_run self exc_type exc_val exc_tb s w :
  servers self = Some s ->
  LocalServerEnvironment___exit___after_base self exc_type exc_val exc_tb w
  = (Ok tt,
     add_log (EvSslExit (ExcInfo exc_type exc_val exc_tb))
       (kill_all (server_procs s)
          (set_sigint SIG_DFL (add_log (EvSignal SIG_DFL) w)))).
Proof.
  intros Hs.
  unfold LocalServerEnvironment___exit___after_base, process_interrupts, get_servers.
  rewrite Hs. unfold bind, emit, modify, ret.
  now rewrite for_each_scheme_kill.
Qed.

(** C1 (as amended): the base [__exit__] releases the cache manager
    first and the stash second, which is the order in which [__enter__]
    acquired them and not the opposite one, and it does so whatever the
    three exception arguments are: they are handed to the cache manager,
    the stash is exited without arguments, both calls are made and the
    method returns normally.  Neither method touches the handler of
    SIGINT or a process. *)
Theorem exit_release_order
    (self : Env) (exc_type exc_val exc_tb : pyval) (w : World) :
  let exc := ExcInfo exc_type exc_val exc_tb in
  let entered := BaseEnvironment___enter__ self w in
  let left :=
    call_BaseEnvironment___exit__ self [exc_type; exc_val; exc_tb] (snd entered) in
  fst entered = Ok self
  /\ fst left = Ok tt
  /\ log (snd left)
     = (log w ++ [EvCacheManagerEnter; EvStashEnter;
                  EvCacheManagerExit exc; EvStashExit])%list
  /\ acquisitions (log (snd left))
     = (acquisitions (log w) ++ [RCacheManager; RStash])%list
  /\ released (log (snd left))
     = (released (log w) ++ [RCacheManager; RStash])%list
  /\ BaseEnvironment___exit__ self exc_type exc_val exc_tb w
     = (Ok tt, add_log EvStashExit (add_log (EvCacheManagerExit exc) w))
  /\ sigint (snd left) = sigint w
  /\ alive (snd left) = alive w.
Proof.
  intros exc entered left.
  assert (log (snd left)
          = (log w ++ [EvCacheManagerEnter; EvStashEnter;
                       EvCacheManagerExit exc; EvStashExit])%list) as Hlog.
  { subst left entered. cbn. now rewrite <- !app_assoc. }
  split; [reflexivity|]. split; [reflexivity|]. split; [exact Hlog|].
  split; [|split; [|repeat split]].
  - rewrite Hlog. unfold acquisitions. now rewrite omap_app.
  - rewrite Hlog. unfold released. now rewrite omap_app.
Qed.

(** C1 (as stated) fails: entering and leaving the base environment
    releases the cache manager and the stash in the order of their
    acquisition, which is not the opposite order. *)
Lemma exit_release_order_counterexample :
  let w1 := snd (BaseEnvironment___enter__ sample_env sample_world) in
  let left := BaseEnvironment___exit__ sample_env PyNone PyNone PyNone w1 in
  fst left = Ok tt
  /\ acquisitions (log (snd left)) = [RCacheManager; RStash]
  /\ released (log (snd left)) = [RCacheManager; RStash]
  /\ released (log (snd left)) <> rev (acquisitions (log (snd left))).
Proof.
  cbv zeta. repeat split; try (vm_compute; reflexivity).
  vm_compute. discriminate.
Qed.

(** Leaving the entered sample environment through
    [LocalServerEnvironment.__exit__] releases nothing: the three servers
    stay alive. *)
Example sample_exit_releases_nothing :
  is_ok (fst sample_entered) = true
  /\ acquisitions (log (snd sample_left))
     = [RCacheManager; RStash; RSslEnv; RServers; RInterrupts]
  /\ released (log (snd sample_left)) = []
  /\ alive (snd sample_left) = {[ 1%positive; 2%positive; 3%positive ]}.
Proof. repeat split; vm_compute; reflexivity. Qed.

(** ** Running a method: inversion of successful runs *)

Lemma bind_Ok {A B} (m : M A) (k : A -> M B) w b w' :
  bind m k w = (Ok b, w') ->
  exists a w1, m w = (Ok a, w1) /\ k a w1 = (Ok b, w').
Proof.
  unfold bind. destruct (m w) as [[a|e] w1]; [eauto | discriminate].
Qed.

Lemma lift_Ok {A} (r : result A) w a w' :
  lift r w = (Ok a, w') -> r = Ok a /\ w' = w.
Proof. unfold lift. intros [= -> ->]. auto. Qed.

Lemma ret_Ok {A} (x : A) w a w' :
  ret x w = (Ok a, w') -> a = x /\ w' = w.
Proof. unfold ret. intros [= -> ->]. auto. Qed.

Lemma emit_Ok e w u w' :
  emit e w = (Ok u, w') -> w' = add_log e w.
Proof. unfold emit. intros [= <-]. auto. Qed.

Lemma read_file_Ok path w data w' :
  read_file path w = (Ok data, w') -> files w !! path = Some data /\ w' = w.
Proof.
  unfold read_file, bind, get_world.
  destruct (files w !! path); cbn; intros [= -> ->]; auto.
Qed.

(** A bind in a successful run [H] is split into its two runs; the first
    one is inverted when it is a lifted result, a file read or a return. *)
Ltac inv_bind H :=
  let a := fresh "v" in
  let w1 := fresh "w" in
  let H1 := fresh "E" in
  apply bind_Ok in H as (a & w1 & H1 & H);
  first [ apply lift_Ok in H1 as [H1 ->]
        | apply read_file_Ok in H1 as [H1 ->]
        | apply ret_Ok in H1 as [-> ->]
        | apply emit_Ok in H1 as ->
        | idtac ].

Lemma wp_ret {A} (a : A) : world_preserving (ret a).
Proof. now intros w. Qed.

Lemma wp_raise {A} e : world_preserving (@raise A e).
Proof. now intros w. Qed.

Lemma wp_lift {A} (r : result A) : world_preserving (lift r).
Proof. now intros w. Qed.

Lemma wp_bind {A B} (m : M A) (k : A -> M B) :
  world_preserving m -> (forall a, world_preserving (k a)) ->
  world_preserving (bind m k).
Proof.
  intros Hm Hk w. unfold bind. specialize (Hm w).
  destruct (m w) as [[a|e] w1]; simpl in *; subst; [apply Hk | reflexivity].
Qed.

Lemma wp_read_file path : world_preserving (read_file path).
Proof.
  intros w. unfold read_file, bind, get_world.
  now destruct (files w !! path).
Qed.

Create HintDb wp.
#[local] Hint Resolve wp_ret wp_raise wp_lift wp_read_file : wp.

(** [load_config] reads files and calls collaborators; it changes
    neither the signal disposition nor the processes nor the log. *)
Lemma load_config_world_preserving `{OsPath, Json, StringFormat, Serve} self :
  world_preserving (load_config self).
Proof.
  unfold load_config.
  repeat (first [ solve [auto with wp]
                | apply wp_bind; [|intros ?]
                | match goal with
                  | |- world_preserving (if ?b then _ else _) => destruct b
                  | |- world_preserving (let '(_, _) := ?p in _) => destruct p
                  end ]).
Qed.

(** ** The configuration *)

Lemma py_setitem_Ok obj key v obj' :
  py_setitem obj key v = Ok obj' ->
  exists d, obj = PyDict d /\ obj' = PyDict (<[key := v]> d).
Proof. destruct obj; simpl; intros [= <-]; eauto. Qed.

Lemma py_getitem_insert d key v :
  py_getitem (PyDict (<[key := v]> d)) key = Ok v.
Proof. simpl. now rewrite lookup_insert_eq. Qed.

Lemma py_getitem_insert_ne d key key' v :
  key <> key' ->
  py_getitem (PyDict (<[key := v]> d)) key' = py_getitem (PyDict d) key'.
Proof. intros Hne. simpl. now rewrite lookup_insert_ne. Qed.

(** C5: when the SSL environment has [ssl_enabled] false, the
    configuration that [load_config] returns has, under [ports], the
    HTTPS port list [[None]], whatever the two configuration files and
    the collaborators produced. *)
Theorem load_config_https_ports_without_ssl `{OsPath, Json, StringFormat, Serve}
    (self : Env) (w w' : World) (cfg : pyval) :
  load_config self w = (Ok cfg, w') ->
  ssl_enabled (self_ssl_env self) = false ->
  exists ports,
    py_getitem cfg "ports" = Ok ports
    /\ py_getitem ports "https" = Ok (PyList [PyNone]).
Proof.
  intros Hrun Hssl. unfold load_config in Hrun. rewrite Hssl in Hrun.
  cbn [negb] in Hrun.
  repeat inv_bind Hrun.
  repeat inv_bind E12. apply lift_Ok in E12 as [E12 ->].
  destruct v15 as [key_file certificate].
  repeat inv_bind Hrun. apply ret_Ok in Hrun as [-> _].
  apply py_setitem_Ok in E12 as (d & _ & ->).
  apply py_setitem_Ok in E17 as (ports & _ & ->).
  apply py_setitem_Ok in E18 as (d1 & [= <-] & ->).
  apply py_setitem_Ok in E19 as (d2 & [= <-] & ->).
  exists (PyDict (<["https" := PyList [PyNone]]> ports)). split.
  - rewrite !py_getitem_insert_ne by discriminate. apply py_getitem_insert.
  - apply py_getitem_insert.
Qed.

Example load_config_sample :
  @load_config sample_ospath sample_json sample_format sample_serve
    sample_env sample_world
  = (Ok sample_loaded_config, sample_world).
Proof. vm_compute. reflexivity. Qed.

(** The witness of [load_config_https_ports_without_ssl]: the sample
    environment, whose two documents list the HTTPS port 8443. *)
Lemma load_config_https_ports_without_ssl_witness :
  ssl_enabled (self_ssl_env sample_env) = false
  /\ exists ports,
       py_getitem sample_loaded_config "ports" = Ok ports
       /\ py_getitem ports "https" = Ok (PyList [PyNone]).
Proof.
  split; [reflexivity|].
  apply (@load_config_https_ports_without_ssl sample_ospath sample_json
           sample_format sample_serve sample_env sample_world sample_world
           sample_loaded_config).
  - vm_compute. reflexivity.
  - reflexivity.
Defined.

(** ** Entering an environment *)

Lemma modify_Ok f w u w' : modify f w = (Ok u, w') -> w' = f w.
Proof. unfold modify. now intros [= <-]. Qed.

Lemma setup_server_logging_Ok self w u w' :
  setup_server_logging self w = (Ok u, w') -> w' = add_log EvSetupServerLogging w.
Proof.
  unfold setup_server_logging, bind, get_world, emit.
  destruct (default_logger w); cbn; [now intros [= <-] | discriminate].
Qed.

(** A successful [__enter__] leaves SIGINT ignored exactly when the
    condition of line 131 holds; otherwise the disposition is the one
    found on entry. *)
Lemma enter_sigint `{OsPath, Json, StringFormat, Serve} self w self' w' :
  LocalServerEnvironment___enter__ self w = (Ok self', w') ->
  sigint w' = if debugger_attached self then SIG_IGN else sigint w.
Proof.
  intros Hrun. unfold LocalServerEnvironment___enter__ in Hrun.
  inv_bind Hrun.
  unfold BaseEnvironment___enter__ in E. repeat inv_bind E. clear E.
  inv_bind Hrun. clear E. inv_bind Hrun.
  apply setup_server_logging_Ok in E as ->.
  inv_bind Hrun.
  match type of E with
  | load_config _ ?w1 = _ =>
      pose proof (load_config_world_preserving self w1) as Hw;
      rewrite E in Hw; cbn [snd] in Hw; subst w0; clear E
  end.
  inv_bind Hrun. inv_bind Hrun. clear E0.
  inv_bind Hrun. inv_bind Hrun. inv_bind Hrun. clear E2.
  inv_bind Hrun. inv_bind Hrun. 
  apply ret_Ok in Hrun as [_ ->].
  change (debugger_attached
            (set_servers v6.2 (set_external_config v6.1 (set_config v3 self))))
    with (debugger_attached self) in E3.
  destruct (debugger_attached self).
  - unfold ignore_interrupts in E3. inv_bind E3.
    apply modify_Ok in E3 as ->. reflexivity.
  - apply ret_Ok in E3 as [_ ->]. reflexivity.
Qed.

(** C6 at the failing input: the sample environment has an interactive
    debugger; entering it sets SIGINT to ignored, and leaving it raises
    [TypeError] and leaves SIGINT ignored instead of restoring the default
    disposition. *)
Theorem sigint_left_ignored_by_exit :
  is_ok (fst sample_entered) = true
  /\ debugger_attached sample_env = true
  /\ sigint sample_world = SIG_DFL
  /\ sigint (snd sample_entered) = SIG_IGN
  /\ exn_class_of (fst sample_left) = Some "TypeError"
  /\ sigint (snd sample_left) = SIG_IGN
  /\ sigint (snd sample_left) <> SIG_DFL.
Proof.
  repeat split; try (vm_compute; reflexivity).
  vm_compute. discriminate.
Qed.
(** ** Routes *)

Lemma od_set_fresh {V} (k : string) (v : V) (d : list (string * V)) :
  k ∉ map fst d -> od_set k v d = (d ++ [(k, v)])%list.
Proof.
  induction d as [|[k' v'] d IH]; intros Hk; [reflexivity|].
  simpl in *. apply not_elem_of_cons in Hk as [Hne Hk].
  destruct (String.eqb_spec k' k); [congruence|].
  now rewrite IH.
Qed.

Lemma add_mount_points_static items b :
  static (add_mount_points items b) = static b.
Proof.
  revert b. induction items as [|[k d] items IH]; intros b; [reflexivity|].
  simpl. destruct (String.eqb k "/"); rewrite IH; reflexivity.
Qed.

(** The second loop appends one mount point per entry other than the
    root, as long as the keys are distinct and not yet in the builder. *)
Lemma add_mount_points_fresh items b :
  NoDup (map fst items) ->
  (forall k, k ∈ map fst items -> k <> "/" -> k ∉ map fst (mountpoint_routes b)) ->
  mountpoint_routes (add_mount_points items b)
  = (mountpoint_routes b
     ++ map (fun item => (fst item, mount_of item))
            (filter (fun item => fst item <> "/") items))%list.
Proof.
  revert b. induction items as [|[k d] items IH]; intros b Hnd Hfresh.
  - simpl. now rewrite app_nil_r.
  - simpl in Hnd. apply NoDup_cons in Hnd as [Hk Hnd].
    simpl. destruct (String.eqb_spec k "/") as [->|Hne].
    + rewrite filter_cons_False by (simpl; tauto).
      apply IH; [done|]. intros k' Hk'. apply Hfresh. simpl. now right.
    + rewrite filter_cons_True by done.
      rewrite IH; [|done|].
      * simpl. rewrite od_set_fresh.
        -- now rewrite <- app_assoc.
        -- apply Hfresh; [simpl; left|]; done.
      * intros k' Hk' Hne'. simpl. rewrite od_set_fresh.
        -- rewrite map_app. simpl. intros Hin.
           apply elem_of_app in Hin as [Hin|Hin].
           ++ revert Hin. apply Hfresh; [simpl; now right | done].
           ++ apply list_elem_of_singleton in Hin. subst k'. contradiction.
        -- apply Hfresh; [simpl; left|]; done.
Qed.

Lemma non_root_items_spec tp k d :
  (k, d) ∈ non_root_items tp <-> k <> "/" /\ tp !! k = Some d.
Proof.
  unfold non_root_items. rewrite list_elem_of_filter, elem_of_map_to_list.
  simpl. tauto.
Qed.

(** C4: [get_routes] returns, in this order, the static route of the
    runner page, the static route of the report script (the file named by
    the [testharnessreport] option, [testharnessreport.js] without it,
    with the template argument [output] equal to [pause_after_test]),
    the root mount point the builder starts with if [test_paths] has the
    key [/], and one mount point per entry of [test_paths] other than
    [/], with the key of the entry as URL prefix and its [tests_path] as
    directory.  So these two are the only static routes, every entry
    other than the root has its mount point, every mount point with
    another prefix than [/] comes from an entry, and without the key [/]
    no root mount point is returned. *)
Theorem get_routes_spec `{OsPath} (self : Env) (report : string) :
  as_path (dict_get (options self) "testharnessreport" (PyStr "testharnessreport.js"))
    = Ok report ->
  let runner_route :=
    StaticRoute (os_path_normpath (os_path_join here "testharness_runner.html"))
                ∅ "text/html" "/testharness_runner.html" in
  let report_route :=
    StaticRoute (os_path_normpath (os_path_join here report))
                {[ "output" := PyBool (pause_after_test self) ]}
                "text/javascript" "/resources/testharnessreport.js" in
  exists mounts,
    get_routes self = Ok (runner_route :: report_route :: mounts)
    /\ mounts = ((if bool_decide (test_paths self !! "/" = None) then []
                  else [MountPoint "/" None])
                 ++ map mount_of (non_root_items (test_paths self)))%list
    /\ (forall r, r ∈ mounts -> is_static r = false)
    /\ (forall url_base d, url_base <> "/" -> test_paths self !! url_base = Some d ->
          MountPoint url_base (Some (tests_path d)) ∈ mounts)
    /\ (forall url_base path, url_base <> "/" -> MountPoint url_base path ∈ mounts ->
          exists d, test_paths self !! url_base = Some d /\ path = Some (tests_path d))
    /\ (test_paths self !! "/" = None ->
          forall path, MountPoint "/" path ∉ mounts).
Proof.
  intros Hreport runner_route report_route.
  set (mounts := ((if bool_decide (test_paths self !! "/" = None) then []
                   else [MountPoint "/" None])
                  ++ map mount_of (non_root_items (test_paths self)))%list).
  assert (forall r, r ∈ map mount_of (non_root_items (test_paths self)) ->
            exists k d, r = MountPoint k (Some (tests_path d))
                        /\ k <> "/" /\ test_paths self !! k = Some d) as Hitems.
  { intros r Hr. apply list_elem_of_fmap in Hr as ([k d] & -> & Hin).
    apply non_root_items_spec in Hin. exists k, d. auto. }
  exists mounts. split; [|split; [reflexivity|split; [|split; [|split]]]].
  - unfold get_routes, static_specs. cbn [add_statics rbind as_path].
    rewrite Hreport. cbn [rbind].
    set (b := add_static _ _ _ _ (add_static _ _ _ _ RoutesBuilder_new)).
    assert (mountpoint_routes (add_mount_points (map_to_list (test_paths self)) b)
            = (("/", MountPoint "/" None)
               :: map (fun item => (fst item, mount_of item))
                      (non_root_items (test_paths self)))) as Hm.
    { rewrite add_mount_points_fresh.
      - reflexivity.
      - apply NoDup_fst_map_to_list.
      - intros k _ Hne. subst b. simpl. intros Hin.
        apply list_elem_of_singleton in Hin. contradiction. }
    assert (static (add_mount_points (map_to_list (test_paths self)) b)
            = [runner_route; report_route]) as Hs.
    { rewrite add_mount_points_static. reflexivity. }
    subst mounts. unfold del_mountpoint_route, RoutesBuilder_get_routes.
    case_bool_decide; cbn [rbind].
    + rewrite Hm. cbn [od_del String.eqb Ascii.eqb Bool.eqb rbind static mountpoint_routes].
      rewrite Hs. rewrite map_map. reflexivity.
    + rewrite Hm, Hs. cbn [map snd]. rewrite map_map. reflexivity.
  - intros r Hr. subst mounts. apply elem_of_app in Hr as [Hr|Hr].
    + case_bool_decide; [by apply elem_of_nil in Hr|].
      apply list_elem_of_singleton in Hr. now subst r.
    + apply Hitems in Hr as (k & d & -> & _). reflexivity.
  - intros k d Hne Hk. subst mounts. apply elem_of_app. right.
    apply list_elem_of_fmap. exists (k, d). split; [reflexivity|].
    now apply non_root_items_spec.
  - intros k p Hne Hin. subst mounts. apply elem_of_app in Hin as [Hin|Hin].
    + case_bool_decide; [by apply elem_of_nil in Hin|].
      apply list_elem_of_singleton in Hin. congruence.
    + apply Hitems in Hin as (k' & d & [= -> ->] & _ & Hk). eauto.
  - intros Hroot p Hin. subst mounts. rewrite bool_decide_eq_true_2 in Hin by done.
    simpl in Hin. apply Hitems in Hin as (k' & d & [= <- ->] & Hne & _). done.
Qed.

(** The witness of [get_routes_spec]: the sample environment, which has
    the root and one more entry and no [testharnessreport] option. *)
Lemma get_routes_spec_witness :
  exists mounts,
    @get_routes sample_ospath sample_env
    = Ok (StaticRoute "/wptrunner/testharness_runner.html" ∅ "text/html"
                      "/testharness_runner.html"
          :: StaticRoute "/wptrunner/testharnessreport.js"
                         {[ "output" := PyBool false ]} "text/javascript"
                         "/resources/testharnessreport.js"
          :: mounts)
    /\ MountPoint "/sub/" (Some "/more-tests") ∈ mounts.
Proof.
  destruct (@get_routes_spec sample_ospath sample_env "testharnessreport.js" eq_refl)
    as (mounts & Hrun & _ & _ & Hin & _).
  exists mounts. split; [exact Hrun|].
  apply (Hin "/sub/" (PathDescriptor "/more-tests" ∅)); [discriminate | reflexivity].
Defined.

(** ** Readiness check *)

Lemma add_events_app evs1 evs2 w :
  add_events (evs1 ++ evs2) w = add_events evs2 (add_events evs1 w).
Proof. apply fold_left_app. Qed.

Lemma add_events_log evs w : log (add_events evs w) = (log w ++ evs)%list.
Proof.
  revert w. induction evs as [|e evs IH]; intros w; simpl.
  - now rewrite app_nil_r.
  - unfold add_events in *. simpl. rewrite IH. simpl. now rewrite <- app_assoc.
Qed.

Lemma add_events_frame evs w :
  alive (add_events evs w) = alive w
  /\ sigint (add_events evs w) = sigint w
  /\ accepting (add_events evs w) = accepting w
  /\ files (add_events evs w) = files w.
Proof.
  revert w. induction evs as [|e evs IH]; intros w; simpl; [done|].
  unfold add_events in *. simpl. destruct (IH (add_log e w)) as (-> & -> & -> & ->).
  done.
Qed.

Lemma check_fails_add_events self evs w host t :
  check_fails self (add_events evs w) host t = check_fails self w host t.
Proof.
  unfold check_fails, probe_fails, connect_ok, not_alive.
  destruct (add_events_frame evs w) as (-> & _ & -> & _). reflexivity.
Qed.

Lemma check_events_add_events self evs w host t :
  check_events self (add_events evs w) host t = check_events self w host t.
Proof.
  unfold check_events, probe_fails, connect_ok.
  destruct (add_events_frame evs w) as (_ & _ & -> & _). reflexivity.
Qed.

Lemma check_exn_add_events self evs w host t :
  check_exn self (add_events evs w) host t = check_exn self w host t.
Proof.
  unfold check_exn, probe_fails, connect_ok.
  destruct (add_events_frame evs w) as (_ & _ & -> & _). reflexivity.
Qed.

(** One pass of the loop body. *)
Lemma check_server_run self host scheme port server w :
  (py_truthy (test_server_port self) = true ->
   py_getitem (config self) "host" = Ok host) ->
  check_server self scheme port server w
  = (if check_fails self w host (scheme, port, server)
     then Raise (check_exn self w host (scheme, port, server))
     else Ok tt,
     add_events (check_events self w host (scheme, port, server)) w).
Proof.
  intros Hhost.
  unfold check_server, check_fails, check_exn, check_events, probe_fails, probe_exn,
    connect_ok, not_alive.
  cbn [fst snd].
  destruct (py_truthy (test_server_port self)) eqn:Hp.
  - rewrite (Hhost eq_refl).
    cbv [bind try_finally try_except lift emit connect is_alive get_world ret raise].
    destruct host as [| | | | |]; cbn [is_str accepting alive add_log negb andb orb app];
      try reflexivity.
    destruct (valid_port port); cbn [accepting alive add_log negb andb orb app];
      [|reflexivity].
    destruct (accepting w (PyStr s) port);
      cbn [accepting alive add_log negb andb orb app].
    + destruct (bool_decide (server ∈ alive w)); reflexivity.
    + reflexivity.
  - cbv [bind ret is_alive emit get_world raise].
    cbn [accepting alive add_log andb orb app].
    destruct (bool_decide (server ∈ alive w)); reflexivity.
Qed.

(** The address is checked before a connection is tried: a port outside
    0..65535 and a host that is not a string raise before the peer is
    asked, the ports 0 and 65535 are passed on. *)
Example connect_address_checks (w : World) :
  fst (connect (PyStr "localhost") 65536 w)
  = Raise (OverflowError "getsockaddrarg: port must be 0-65535.")
  /\ fst (connect (PyStr "localhost") (-1) w)
     = Raise (OverflowError "getsockaddrarg: port must be 0-65535.")
  /\ fst (connect (PyInt 127) 80 w)
     = Raise (TypeError "getsockaddrarg() argument 1 must be string")
  /\ fst (connect (PyStr "localhost") 65535 w)
     = (if accepting w (PyStr "localhost") 65535 then Ok tt else Raise SocketError)
  /\ fst (connect (PyStr "localhost") 0 w)
     = (if accepting w (PyStr "localhost") 0 then Ok tt else Raise SocketError).
Proof.
  repeat split; cbv [connect bind emit get_world ret raise fst valid_port];
    cbn [Z.leb Z.compare Pos.compare Pos.compare_cont andb accepting add_log];
    try reflexivity.
  - now destruct (accepting w (PyStr "localhost") 65535).
  - now destruct (accepting w (PyStr "localhost") 0).
Qed.

Lemma bind_run {A B} (m : M A) (k : A -> M B) w :
  bind m k w = match m w with
               | (Ok a, w') => k a w'
               | (Raise e, w') => (Raise e, w')
               end.
Proof. reflexivity. Qed.

Lemma for_each_app {A} (l1 l2 : list A) (f : A -> M unit) w :
  for_each (l1 ++ l2) f w = bind (for_each l1 f) (fun _ => for_each l2 f) w.
Proof.
  revert w. induction l1 as [|x l1 IH]; intros w; [reflexivity|].
  simpl. rewrite !bind_run.
  destruct (f x w) as [[u|e] w1]; [rewrite IH; now rewrite bind_run | reflexivity].
Qed.

Lemma for_each_map {A B} (g : A -> B) (l : list A) (f : B -> M unit) w :
  for_each (map g l) f w = for_each l (fun x => f (g x)) w.
Proof.
  revert w. induction l as [|x l IH]; intros w; [reflexivity|].
  simpl. unfold bind. destruct (f (g x) w) as [[u|e] w1]; [apply IH | reflexivity].
Qed.

(** The two nested loops visit the servers in the order of [flat_servers]. *)
Lemma for_each_servers (F : string -> Z -> proc -> M unit) (s : servers_t) w :
  for_each s (fun entry =>
    for_each (snd entry) (fun ps => F (fst entry) (fst ps) (snd ps))) w
  = for_each (flat_servers s) (fun t => F (fst (fst t)) (snd (fst t)) (snd t)) w.
Proof.
  revert w. induction s as [|[scheme l] s IH]; intros w; [reflexivity|].
  unfold flat_servers. simpl. rewrite for_each_app, !bind_run, for_each_map.
  cbn [fst snd].
  destruct (for_each l _ w) as [[u|e] w1]; [apply IH | reflexivity].
Qed.

Lemma find_pointwise {A} (f g : A -> bool) l :
  (forall x, f x = g x) -> find f l = find g l.
Proof.
  intros Hfg. induction l as [|x l IH]; [reflexivity|].
  simpl. rewrite Hfg, IH. reflexivity.
Qed.

Lemma visited_pointwise {A} (f g : A -> bool) l :
  (forall x, f x = g x) -> visited f l = visited g l.
Proof.
  intros Hfg. induction l as [|x l IH]; [reflexivity|].
  simpl. rewrite Hfg, IH. reflexivity.
Qed.


(** The loop over the servers: it stops at the first server with a failing
    check, with the exception of that check, and has made the calls of
    the servers visited so far. *)
Lemma check_loop self host (l : list (string * Z * proc)) w :
  (py_truthy (test_server_port self) = true ->
   py_getitem (config self) "host" = Ok host) ->
  for_each l (fun t => check_server self (fst (fst t)) (snd (fst t)) (snd t)) w
  = (match find (check_fails self w host) l with
     | Some t => Raise (check_exn self w host t)
     | None => Ok tt
     end,
     add_events (flat_map (check_events self w host)
                          (visited (check_fails self w host) l)) w).
Proof.
  intros Hhost. revert w. induction l as [|[[scheme port] server] l IH]; intros w.
  - reflexivity.
  - cbn [for_each fst snd]. unfold bind.
    rewrite (check_server_run self host) by exact Hhost.
    cbn [find visited flat_map].
    destruct (check_fails self w host (scheme, port, server)) eqn:Hf.
    + cbn [flat_map]. now rewrite app_nil_r.
    + rewrite IH. rewrite add_events_app.
      set (w1 := add_events (check_events self w host (scheme, port, server)) w).
      rewrite (find_pointwise (check_fails self w1 host) (check_fails self w host))
        by (intros x; apply check_fails_add_events).
      rewrite (visited_pointwise (check_fails self w1 host) (check_fails self w host))
        by (intros x; apply check_fails_add_events).
      rewrite (flat_map_ext (check_events self w1 host) (check_events self w host))
        by (intros x; apply check_events_add_events).
      destruct (find (check_fails self w host) l) as [t|]; [|reflexivity].
      subst w1. now rewrite check_exn_add_events.
Qed.

(** [ensure_started], run from [w]. *)
Lemma ensure_started_run self host s w :
  servers self = Some s ->
  (py_truthy (test_server_port self) = true ->
   py_getitem (config self) "host" = Ok host) ->
  let w0 := add_log (EvSleep 2) w in
  LocalServerEnvironment_ensure_started self w
  = (match find (check_fails self w host) (flat_servers s) with
     | Some t => Raise (check_exn self w host t)
     | None => Ok tt
     end,
     add_events (flat_map (check_events self w host)
                          (visited (check_fails self w host) (flat_servers s))) w0).
Proof.
  intros Hs Hhost w0.
  unfold LocalServerEnvironment_ensure_started, get_servers. rewrite Hs.
  unfold bind at 1. unfold emit at 1. unfold bind at 1. unfold ret at 1.
  fold w0.
  rewrite (for_each_servers (check_server self)).
  rewrite (check_loop self host) by exact Hhost.
  rewrite (find_pointwise (check_fails self w0 host) (check_fails self w host))
    by (intros x; apply (check_fails_add_events self [EvSleep 2])).
  rewrite (visited_pointwise (check_fails self w0 host) (check_fails self w host))
    by (intros x; apply (check_fails_add_events self [EvSleep 2])).
  rewrite (flat_map_ext (check_events self w0 host) (check_events self w host))
    by (intros x; apply (check_events_add_events self [EvSleep 2])).
  destruct (find (check_fails self w host) (flat_servers s)) as [t|]; [|reflexivity].
  rewrite <- (check_exn_add_events self [EvSleep 2] w host t). reflexivity.
Qed.

Lemma count_events_app p evs1 evs2 :
  count_events p (evs1 ++ evs2) = (count_events p evs1 + count_events p evs2)%nat.
Proof. unfold count_events. now rewrite List.filter_app, length_app. Qed.









(** ** Failures of [load_config] *)

Lemma append_cons (c : ascii) (a b : string) :
  (String c a ++ b = String c (a ++ b))%string.
Proof. reflexivity. Qed.

Lemma append_nil_r (a : string) : (a ++ "" = a)%string.
Proof. induction a as [|x a IH]; [reflexivity|]. rewrite append_cons. now f_equal. Qed.

Lemma string_app_assoc (a b c : string) : ((a ++ b) ++ c = a ++ (b ++ c))%string.
Proof.
  induction a as [|x a IH]; [reflexivity|].
  rewrite !append_cons. now f_equal.
Qed.

(** Text without a percent sign is copied. *)
Lemma interpolate_plain `{StringFormat} pre s opts :
  plain pre = true ->
  interpolate (pre ++ s) 0 opts
  = rbind (interpolate s 0 opts) (fun tail => Ok (pre ++ tail)).
Proof.
  induction pre as [|c pre IH]; intros Hp.
  - change ("" ++ s)%string with s. now destruct (interpolate s 0 opts).
  - simpl in Hp. apply andb_true_iff in Hp as [Hc Hp].
    apply negb_true_iff in Hc. rewrite append_cons. cbn [interpolate].
    rewrite Hc. rewrite (IH Hp).
    now destruct (interpolate s 0 opts).
Qed.

(** A key whose parentheses are balanced is read up to the parenthesis
    that follows it. *)
Lemma read_key_nested key depth rest acc :
  nested key depth = true ->
  read_key (key ++ String ")" rest) depth acc = Some (acc ++ key, rest).
Proof.
  revert depth acc. induction key as [|c key IH]; intros depth acc Hk.
  - change ("" ++ String ")" rest)%string with (String ")" rest).
    destruct depth; [|discriminate].
    cbn [read_key Ascii.eqb Bool.eqb]. now rewrite append_nil_r.
  - rewrite append_cons. cbn [nested] in Hk. cbn [read_key].
    destruct (Ascii.eqb c ")") eqn:Hc1.
    + apply Ascii.eqb_eq in Hc1 as ->.
      destruct depth as [|d]; [discriminate|].
      rewrite (IH _ _ Hk). now rewrite string_app_assoc.
    + destruct (Ascii.eqb c "(") eqn:Hc2.
      * apply Ascii.eqb_eq in Hc2 as ->.
        rewrite (IH _ _ Hk). now rewrite string_app_assoc.
      * rewrite (IH _ _ Hk). now rewrite string_app_assoc.
Qed.

(** A key without parentheses has them balanced. *)
Lemma nested_no_paren key : no_paren key = true -> nested key 0 = true.
Proof.
  induction key as [|c key IH]; intros Hn; [reflexivity|].
  simpl in Hn. apply andb_true_iff in Hn as [Hc Hn].
  apply andb_true_iff in Hc as [Hc1 Hc2].
  apply negb_true_iff in Hc1, Hc2. cbn [nested]. rewrite Hc1, Hc2. now apply IH.
Qed.

(** The text before a percent sign is scanned without an error. *)
Lemma scans_plain `{StringFormat} opts pre s :
  plain pre = true -> scans opts (pre ++ s) 0 s.
Proof.
  induction pre as [|c pre IH]; intros Hp.
  - apply scans_here.
  - simpl in Hp. apply andb_true_iff in Hp as [Hc Hp].
    apply negb_true_iff in Hc. rewrite append_cons.
    apply scans_literal; [exact Hc | now apply IH].
Qed.

(** An error raised where the scan has got to is the error of the whole
    interpolation. *)
Lemma interpolate_scans `{StringFormat} opts s skip s' e :
  scans opts s skip s' ->
  interpolate s' 0 opts = Raise e ->
  interpolate s skip opts = Raise e.
Proof.
  intros Hscan He. induction Hscan as [s|c s k s' _ IH|c s s' Hc _ IH|s d s' Hd _ IH].
  - exact He.
  - cbn [interpolate]. now apply IH.
  - cbn [interpolate]. rewrite Hc, (IH He). reflexivity.
  - cbn [interpolate Ascii.eqb Bool.eqb]. rewrite Hd. cbn [rbind].
    rewrite (IH He). reflexivity.
Qed.

(** A directive that names a key that the options do not have raises
    [KeyError] for that key. *)
Lemma interpolate_undefined_key `{StringFormat} key rest opts :
  nested key 0 = true -> opts !! key = None ->
  interpolate ("%(" ++ key ++ String ")" rest) 0 opts = Raise (KeyError key).
Proof.
  intros Hk Ho. rewrite !append_cons.
  change ("" ++ key ++ String ")" rest)%string with (key ++ String ")" rest)%string.
  cbn [interpolate Ascii.eqb Bool.eqb directive].
  rewrite (read_key_nested key 0 rest "" Hk).
  change ("" ++ key)%string with key. rewrite Ho.
  reflexivity.
Qed.

(** A template in which the interpolation gets to a directive that names
    a key that the options do not have cannot be interpolated: the lookup
    raises [KeyError]. *)
Lemma py_mod_undefined_key `{StringFormat} data key rest opts :
  scans opts data 0 ("%(" ++ key ++ String ")" rest) ->
  nested key 0 = true -> opts !! key = None ->
  py_mod data opts = Raise (KeyError key).
Proof.
  intros Hscan Hk Ho. unfold py_mod.
  apply (interpolate_scans opts data 0 _ _ Hscan).
  now apply interpolate_undefined_key.
Qed.

(** C3 (as amended): with a root entry in [test_paths], [load_config]
    fails in each of these cases, with the exception that the failing
    operation raises and nothing wrapped around it: [IOError] when the
    default or the local configuration file cannot be read, [ValueError]
    when the default file or the interpolated local file does not parse,
    and whatever the interpolation of the local file raises.  That is
    [KeyError] for the first key that the template names and the options
    do not have: the directive may stand anywhere in the template, after
    literal text and after other directives, as long as those are
    converted without an error (the error of an earlier directive is
    raised instead), and the key may contain balanced parentheses.  In
    none of these cases the world changes. *)
Theorem load_config_failures `{OsPath, Json, StringFormat, Serve}
    (self : Env) (w : World) (d : path_descriptor) :
  test_paths self !! "/" = Some d ->
  let default_config_path := os_path_join (tests_path d) "config.default.json" in
  let local_config_path := os_path_join here "config.json" in
  (files w !! default_config_path = None ->
     load_config self w = (Raise (IOError default_config_path), w))
  /\ (forall data0, files w !! default_config_path = Some data0 ->
        json_loads data0 = None ->
        exists msg, load_config self w = (Raise (ValueError msg), w))
  /\ (forall data0 default_config,
        files w !! default_config_path = Some data0 ->
        json_loads data0 = Some default_config ->
        (files w !! local_config_path = None ->
           load_config self w = (Raise (IOError local_config_path), w))
        /\ (forall data, files w !! local_config_path = Some data ->
              (forall e, py_mod data (options self) = Raise e ->
                 load_config self w = (Raise e, w))
              /\ (forall key rest,
                    scans (options self) data 0 ("%(" ++ key ++ String ")" rest) ->
                    nested key 0 = true ->
                    options self !! key = None ->
                    load_config self w = (Raise (KeyError key), w))
              /\ (forall pre key rest,
                    data = (pre ++ "%(" ++ key ++ String ")" rest)%string ->
                    plain pre = true -> no_paren key = true ->
                    options self !! key = None ->
                    load_config self w = (Raise (KeyError key), w))
              /\ (forall text, py_mod data (options self) = Ok text ->
                    json_loads text = None ->
                    exists msg, load_config self w = (Raise (ValueError msg), w)))).
Proof.
  intros Hroot default_config_path local_config_path.
  assert (forall k : string -> M pyval,
            bind (lift (serve_path (test_paths self))) k w = k (tests_path d) w) as Hstart.
  { intros k. unfold serve_path. now rewrite Hroot. }
  assert (forall path (k : string -> M pyval),
            files w !! path = None ->
            bind (read_file path) k w = (Raise (IOError path), w)) as Hmissing.
  { intros path k Hf. cbv [bind read_file get_world ret raise]. now rewrite Hf. }
  assert (forall path data (k : string -> M pyval),
            files w !! path = Some data ->
            bind (read_file path) k w = k data w) as Hread.
  { intros path data k Hf. cbv [bind read_file get_world ret raise]. now rewrite Hf. }
  assert (forall A (r : result A) (k : A -> M pyval) e,
            r = Raise e -> bind (lift r) k w = (Raise e, w)) as Hraise.
  { intros A r k e ->. reflexivity. }
  assert (forall A (r : result A) (k : A -> M pyval) a,
            r = Ok a -> bind (lift r) k w = k a w) as Hok.
  { intros A r k a ->. reflexivity. }
  split; [|split].
  - intros Hf. unfold load_config. rewrite Hstart. now apply Hmissing.
  - intros data0 Hf Hparse. eexists. unfold load_config. rewrite Hstart.
    rewrite (Hread _ _ _ Hf). apply Hraise. unfold json_parse. now rewrite Hparse.
  - intros data0 default_config Hf Hparse.
    assert (json_parse data0 = Ok default_config) as Hp0.
    { unfold json_parse. now rewrite Hparse. }
    split.
    + intros Hl. unfold load_config. rewrite Hstart.
      rewrite (Hread _ _ _ Hf), (Hok _ _ _ _ Hp0). now apply Hmissing.
    + intros data Hl.
      assert (forall e, py_mod data (options self) = Raise e ->
                load_config self w = (Raise e, w)) as Hmod.
      { intros e He. unfold load_config. rewrite Hstart.
        rewrite (Hread _ _ _ Hf), (Hok _ _ _ _ Hp0), (Hread _ _ _ Hl).
        now apply Hraise. }
      split; [exact Hmod|]. split; [|split].
      * intros key rest Hscan Hk Ho. apply Hmod.
        now apply (py_mod_undefined_key data key rest).
      * intros pre key rest -> Hp Hk Ho. apply Hmod.
        apply (py_mod_undefined_key _ key rest); [|now apply nested_no_paren|exact Ho].
        now apply scans_plain.
      * intros text Ht Hparse'. eexists. unfold load_config. rewrite Hstart.
        rewrite (Hread _ _ _ Hf), (Hok _ _ _ _ Hp0), (Hread _ _ _ Hl),
          (Hok _ _ _ _ Ht).
        apply Hraise. unfold json_parse. now rewrite Hparse'.
Qed.

(** Builds the scan of a concrete template up to the text that is left. *)
Ltac scan_template :=
  repeat first
    [ apply scans_here
    | apply scans_skip
    | apply scans_literal; [reflexivity|]
    | eapply scans_directive; [reflexivity|] ].

(** The witness of [load_config_failures]: the sample environment when
    the default configuration file is missing, and when the template of
    the local file names [host], which the sample options have, and then
    [bind_hostname], which they do not have. *)
Lemma load_config_failures_witness :
  test_paths sample_env !! "/" = Some (PathDescriptor "/tests" ∅)
  /\ files sample_world_no_default !! "/tests/config.default.json" = None
  /\ @load_config sample_ospath sample_json sample_format sample_serve
       sample_env sample_world_no_default
     = (Raise (IOError "/tests/config.default.json"), sample_world_no_default)
  /\ files sample_world_two_keys !! "/wptrunner/config.json"
     = Some "local document for %(host)s on %(bind_hostname)s"
  /\ options sample_env !! "host" = Some (PyStr "web-platform.test")
  /\ options sample_env !! "bind_hostname" = None
  /\ @load_config sample_ospath sample_json sample_format sample_serve
       sample_env sample_world_two_keys
     = (Raise (KeyError "bind_hostname"), sample_world_two_keys).
Proof.
  split; [reflexivity|]. split; [reflexivity|].
  split; [|split; [reflexivity|split; [reflexivity|split; [reflexivity|]]]].
  - destruct (@load_config_failures sample_ospath sample_json sample_format sample_serve
                sample_env sample_world_no_default (PathDescriptor "/tests" ∅) eq_refl)
      as (Hmissing & _).
    apply Hmissing. reflexivity.
  - destruct (@load_config_failures sample_ospath sample_json sample_format sample_serve
                sample_env sample_world_two_keys (PathDescriptor "/tests" ∅) eq_refl)
      as (_ & _ & Hlocal).
    destruct (Hlocal "default document" sample_default_config eq_refl eq_refl)
      as (_ & Hdata).
    destruct (Hdata "local document for %(host)s on %(bind_hostname)s" eq_refl)
      as (_ & Hkey & _).
    apply (Hkey "bind_hostname" "s"); [|reflexivity|reflexivity].
    scan_template.
Defined.

(** C3 (as stated) fails: with the default configuration file missing,
    [load_config] raises [IOError], which is not a [ConfigError]; and with
    an option missing for the template of the local file it raises
    [KeyError]. *)
Lemma load_config_ConfigError_counterexample :
  (files sample_world_no_default !! "/tests/config.default.json" = None
   /\ exn_class_of (fst (@load_config sample_ospath sample_json sample_format
                           sample_serve sample_env sample_world_no_default))
      = Some "IOError")
  /\ (sample_files !! "/wptrunner/config.json" = Some "local document for %(host)s"
      /\ options (set_options (delete "host" sample_options) sample_env) !! "host" = None
      /\ exn_class_of (fst (@load_config sample_ospath sample_json sample_format
                              sample_serve
                              (set_options (delete "host" sample_options) sample_env)
                              sample_world))
         = Some "KeyError")
  /\ Some "IOError" <> Some "ConfigError"
  /\ Some "KeyError" <> Some "ConfigError".
Proof.
  repeat split; try (vm_compute; reflexivity); discriminate.
Qed.

(** * Further properties *)

(** ** Host names *)

Lemma string_length_app (a b : string) :
  String.length (a ++ b) = (String.length a + String.length b)%nat.
Proof.
  induction a as [|c a IH]; [reflexivity|].
  rewrite append_cons. simpl. now rewrite IH.
Qed.

Lemma hostname_of_suffix a_host item :
  exists prefix, hostname_of a_host item = (prefix ++ a_host)%string.
Proof.
  unfold hostname_of. destruct (String.eqb item "").
  - exists "". reflexivity.
  - exists (item ++ ".")%string. now rewrite string_app_assoc.
Qed.

(** X1: the list comprehension of line 31 yields one host name per
    subdomain, in the same order: the host itself for the empty
    subdomain, and the subdomain, a dot and the host otherwise.  So every
    host name ends with the host, and the host is among the names exactly
    when the empty subdomain is listed, as it is in [subdomains]. *)
Theorem hostnames_for_spec (a_host : string) (a_subdomains : list string) :
  length (hostnames_for a_host a_subdomains) = length a_subdomains
  /\ (forall i item, a_subdomains !! i = Some item ->
        hostnames_for a_host a_subdomains !! i
        = Some (if String.eqb item "" then a_host else (item ++ "." ++ a_host)%string))
  /\ (forall h, h ∈ hostnames_for a_host a_subdomains ->
        exists prefix, h = (prefix ++ a_host)%string)
  /\ (a_host ∈ hostnames_for a_host a_subdomains <-> "" ∈ a_subdomains)
  /\ a_host ∈ hostnames_for a_host subdomains.
Proof.
  assert (a_host ∈ hostnames_for a_host a_subdomains <-> "" ∈ a_subdomains) as Hin.
  { unfold hostnames_for. rewrite list_elem_of_fmap. split.
    - intros (item & Heq & Hitem). unfold hostname_of in Heq.
      destruct (String.eqb_spec item ""); [now subst|].
      exfalso. assert (String.length a_host
                       = String.length (item ++ "." ++ a_host)%string) as Hlen
        by now rewrite <- Heq.
      rewrite !string_length_app in Hlen. simpl in Hlen. lia.
    - intros Hempty. exists "". split; [reflexivity | exact Hempty]. }
  split; [|split; [|split; [|split]]].
  - unfold hostnames_for. apply length_map.
  - intros i item Hi. unfold hostnames_for. rewrite list_lookup_fmap, Hi. reflexivity.
  - intros h Hh. unfold hostnames_for in Hh.
    apply list_elem_of_fmap in Hh as (item & -> & _). apply hostname_of_suffix.
  - exact Hin.
  - unfold hostnames_for, subdomains. simpl. left.
Qed.

(** ** Delayed imports *)

(** X2: with a root entry in [test_paths], [do_delayed_imports] returns
    normally exactly when both imports succeed under the path extended
    by the tests directory, and then nothing is logged; otherwise it ends
    the process with status 1 after exactly one critical message, which
    lists the modules that failed ([serve] before [sslutils]) and the
    tests directory. *)
Theorem do_delayed_imports_outcome `{Importer}
    (a_test_paths : gmap string path_descriptor) (d : path_descriptor)
    (st : Interpreter) :
  a_test_paths !! "/" = Some d ->
  let root := tests_path d in
  let path := root :: sys_path st in
  let run := do_delayed_imports a_test_paths st in
  (fst run = Returned <->
     importable path "tools.serve" = true /\ importable path "sslutils" = true)
  /\ (fst run = Returned -> critical_log (snd run) = critical_log st)
  /\ (fst run <> Returned ->
      fst run = Exited 1
      /\ exists names,
           critical_log (snd run)
           = (critical_log st ++ [import_failure_message names root])%list
           /\ names = ((if importable path "tools.serve" then [] else ["serve"])
                       ++ (if importable path "sslutils" then [] else ["sslutils"]))%list
           /\ join_comma names
              = if importable path "tools.serve" then "sslutils"
                else if importable path "sslutils" then "serve"
                else "serve, sslutils").
Proof.
  intros Hroot root path run. subst run. unfold do_delayed_imports, serve_path.
  rewrite Hroot. fold root. fold path.
  destruct (importable path "tools.serve"), (importable path "sslutils");
    cbn [fst snd app critical_log orb].
  - split; [tauto|]. split; [reflexivity | congruence].
  - split; [split; [discriminate | intros [_ ?]; discriminate]|].
    split; [discriminate|]. intros _. split; [reflexivity|].
    eexists. split; [reflexivity|]. split; reflexivity.
  - split; [split; [discriminate | intros [? _]; discriminate]|].
    split; [discriminate|]. intros _. split; [reflexivity|].
    eexists. split; [reflexivity|]. split; reflexivity.
  - split; [split; [discriminate | intros [? _]; discriminate]|].
    split; [discriminate|]. intros _. split; [reflexivity|].
    eexists. split; [reflexivity|]. split; reflexivity.
Qed.

(** The witness of [do_delayed_imports_outcome]: the sample importer
    finds [tools.serve] under the tests directory but no [sslutils]. *)
Lemma do_delayed_imports_outcome_witness :
  sample_test_paths !! "/" = Some (PathDescriptor "/tests" ∅)
  /\ fst (@do_delayed_imports sample_importer sample_test_paths sample_interpreter)
     = Exited 1
  /\ critical_log (snd (@do_delayed_imports sample_importer sample_test_paths
                          sample_interpreter))
     = ["Failed to import sslutils. Ensure that tests path /tests contains web-platform-tests"].
Proof.
  split; [reflexivity|].
  destruct (@do_delayed_imports_outcome sample_importer sample_test_paths
              (PathDescriptor "/tests" ∅) sample_interpreter eq_refl)
    as (_ & _ & Hfail).
  destruct Hfail as (Hexit & names & Hlog & -> & _).
  - vm_compute. discriminate.
  - split; [exact Hexit|]. rewrite Hlog. vm_compute. reflexivity.
Defined.

(** X3: what [do_delayed_imports] leaves behind.  Without a root entry
    in [test_paths] it raises [KeyError] and changes nothing.  With one,
    the tests directory is put in front of [sys.path] whether or not the
    imports succeed and even when the process is about to exit; a global
    is bound afterwards exactly when its import succeeded or it was bound
    before, so a failed import never unbinds a module and a module that
    did import stays bound although the process exits. *)
Theorem do_delayed_imports_effects `{Importer}
    (a_test_paths : gmap string path_descriptor) (st : Interpreter) :
  let run := do_delayed_imports a_test_paths st in
  match a_test_paths !! "/" with
  | None => run = (Raised (KeyError "/"), st)
  | Some d =>
      let path := tests_path d :: sys_path st in
      sys_path (snd run) = path
      /\ serve_bound (snd run) = importable path "tools.serve" || serve_bound st
      /\ sslutils_bound (snd run) = importable path "sslutils" || sslutils_bound st
      /\ (fst run = Returned ->
          serve_bound (snd run) = true /\ sslutils_bound (snd run) = true)
  end.
Proof.
  cbv zeta. unfold do_delayed_imports, serve_path.
  destruct (a_test_paths !! "/") as [d|]; [|reflexivity].
  destruct (importable (tests_path d :: sys_path st) "tools.serve"),
    (importable (tests_path d :: sys_path st) "sslutils");
    cbn [fst snd app sys_path serve_bound sslutils_bound orb];
    repeat split; try reflexivity; discriminate.
Qed.

(** ** Options of the SSL environment *)

Lemma required_order_keys ssl_type k :
  k ∈ required_order ssl_type <-> k ∈ required_keys ssl_type.
Proof.
  rewrite required_keys_eq. unfold required_order.
  destruct (py_eq_str ssl_type "openssl"); [|destruct (py_eq_str ssl_type "pregenerated")].
  - rewrite list_elem_of_singleton, elem_of_singleton. tauto.
  - rewrite !elem_of_cons, elem_of_nil, !elem_of_union, !elem_of_singleton. tauto.
  - rewrite elem_of_nil, elem_of_empty. tauto.
Qed.

(** [get_ssl_kwargs] in closed form: the first option that is not given
    decides the exception. *)
Lemma get_ssl_kwargs_result kwargs :
  match kwargs !! "ssl_type" with
  | None => get_ssl_kwargs kwargs = Raise (KeyError "ssl_type")
  | Some ssl_type =>
      match find (missing kwargs) (required_order ssl_type) with
      | Some k => get_ssl_kwargs kwargs = Raise (KeyError k)
      | None => is_ok (get_ssl_kwargs kwargs) = true
      end
  end.
Proof.
  unfold get_ssl_kwargs, kw_getitem, required_order, missing.
  destruct (kwargs !! "ssl_type") as [t|]; [|reflexivity]. cbn [rbind].
  destruct (py_eq_str t "openssl").
  - cbn [find]. destruct (kwargs !! "openssl_binary"); reflexivity.
  - destruct (py_eq_str t "pregenerated"); [|reflexivity].
    cbn [find].
    destruct (kwargs !! "host_key_path"); [|reflexivity].
    destruct (kwargs !! "host_cert_path"); [|reflexivity].
    destruct (kwargs !! "ca_cert_path"); reflexivity.
Qed.

(** X4: [get_ssl_kwargs] reads [ssl_type] and the options documented for
    that kind and nothing else: two option mappings that agree on these
    give the same result, whatever else they hold. *)
Theorem get_ssl_kwargs_frame (kwargs kwargs' : gmap string pyval) (ssl_type : pyval) :
  kwargs !! "ssl_type" = Some ssl_type ->
  kwargs' !! "ssl_type" = Some ssl_type ->
  (forall k, k ∈ required_keys ssl_type -> kwargs' !! k = kwargs !! k) ->
  get_ssl_kwargs kwargs' = get_ssl_kwargs kwargs.
Proof.
  intros Ht Ht' Hagree. unfold get_ssl_kwargs, kw_getitem.
  rewrite Ht, Ht'. cbn [rbind]. rewrite required_keys_eq in Hagree.
  destruct (py_eq_str ssl_type "openssl").
  - rewrite (Hagree "openssl_binary") by now apply elem_of_singleton. reflexivity.
  - destruct (py_eq_str ssl_type "pregenerated"); [|reflexivity].
    rewrite (Hagree "host_key_path"), (Hagree "host_cert_path"),
      (Hagree "ca_cert_path"); [reflexivity|..];
      rewrite !elem_of_union, !elem_of_singleton; tauto.
Qed.

(** The witness of [get_ssl_kwargs_frame]: two mappings for the
    [openssl] kind that differ in options it does not use. *)
Lemma get_ssl_kwargs_frame_witness :
  sample_openssl_options !! "host_key_path" <> sample_openssl_options' !! "host_key_path"
  /\ get_ssl_kwargs sample_openssl_options' = get_ssl_kwargs sample_openssl_options.
Proof.
  split; [vm_compute; discriminate|].
  apply (get_ssl_kwargs_frame sample_openssl_options sample_openssl_options'
           (PyStr "openssl")); [reflexivity | reflexivity |].
  intros k Hk.
  change (required_keys (PyStr "openssl")) with ({[ "openssl_binary" ]} : gset string) in Hk.
  apply elem_of_singleton in Hk. subst k. reflexivity.
Defined.

(** X5: the only failure of [get_ssl_kwargs] is a [KeyError] for an
    option that is not given: [ssl_type] itself, or else the first one
    missing among the options of the kind, in the order [openssl_binary]
    or [host_key_path], [host_cert_path], [ca_cert_path].  For any other
    kind it cannot fail once [ssl_type] is given. *)
Theorem get_ssl_kwargs_errors (kwargs : gmap string pyval) (e : exn) :
  get_ssl_kwargs kwargs = Raise e ->
  exists k,
    e = KeyError k
    /\ kwargs !! k = None
    /\ match kwargs !! "ssl_type" with
       | None => k = "ssl_type"
       | Some ssl_type =>
           find (missing kwargs) (required_order ssl_type) = Some k
           /\ k ∈ required_keys ssl_type
           /\ (py_eq_str ssl_type "openssl" = true
               \/ py_eq_str ssl_type "pregenerated" = true)
       end.
Proof.
  intros He. pose proof (get_ssl_kwargs_result kwargs) as Hr.
  destruct (kwargs !! "ssl_type") as [t|] eqn:Ht.
  - destruct (find (missing kwargs) (required_order t)) as [k|] eqn:Hf.
    + rewrite Hr in He. injection He as <-. exists k.
      apply find_some in Hf as [Hin Hm]. apply list_elem_of_In in Hin.
      split; [reflexivity|]. split.
      * unfold missing in Hm. now destruct (kwargs !! k).
      * split; [reflexivity|]. split; [now apply required_order_keys|].
        unfold required_order in Hin.
        destruct (py_eq_str t "openssl"); [now left|].
        destruct (py_eq_str t "pregenerated"); [now right|].
        now apply elem_of_nil in Hin.
    + rewrite He in Hr. discriminate.
  - rewrite Hr in He. injection He as <-. exists "ssl_type". auto.
Qed.

(** The witness of [get_ssl_kwargs_errors]: the pregenerated kind without
    its certificate paths. *)
Lemma get_ssl_kwargs_errors_witness :
  get_ssl_kwargs {[ "ssl_type" := PyStr "pregenerated" ]}
  = Raise (KeyError "host_key_path")
  /\ exists k, KeyError "host_key_path" = KeyError k
               /\ ({[ "ssl_type" := PyStr "pregenerated" ]} : gmap string pyval) !! k = None.
Proof.
  assert (get_ssl_kwargs {[ "ssl_type" := PyStr "pregenerated" ]}
          = Raise (KeyError "host_key_path")) as Hrun by (vm_compute; reflexivity).
  split; [exact Hrun|].
  destruct (get_ssl_kwargs_errors _ _ Hrun) as (k & Hk & Hnone & _).
  exists k. split; assumption.
Defined.

(** X6: [ssl_env] looks the class up before it collects the keyword
    arguments.  A kind that is not registered raises [KeyError] with the
    kind, also when options are missing; for a registered kind [ssl_env]
    succeeds exactly when the options of the kind are given, calls the
    class registered under the kind, and otherwise fails as
    [get_ssl_kwargs] does. *)
Theorem ssl_env_spec `{SslUtils} (kwargs : gmap string pyval) (kind : string) :
  kwargs !! "ssl_type" = Some (PyStr kind) ->
  (kind ∉ environments -> ssl_env kwargs = Raise (KeyError kind))
  /\ (kind ∈ environments ->
      (is_ok (ssl_env kwargs) = true <-> required_keys (PyStr kind) ⊆ dom kwargs)
      /\ (forall cls args, ssl_env kwargs = Ok (cls, args) -> cls = kind)
      /\ (forall e, get_ssl_kwargs kwargs = Raise e -> ssl_env kwargs = Raise e)).
Proof.
  intros Ht. unfold ssl_env, environments_getitem, kw_getitem. rewrite Ht. cbn [rbind].
  split.
  - intros Hout. now rewrite bool_decide_eq_false_2.
  - intros Hin. rewrite bool_decide_eq_true_2 by exact Hin. cbn [rbind].
    split; [|split].
    + pose proof (get_ssl_kwargs_result kwargs) as Hr. rewrite Ht in Hr.
      destruct (find (missing kwargs) (required_order (PyStr kind))) as [k|] eqn:Hf.
      * rewrite Hr. cbn. split; [discriminate|]. intros Hsub. exfalso.
        apply find_some in Hf as [Hk Hm]. apply list_elem_of_In in Hk.
        apply (required_order_keys (PyStr kind)) in Hk. apply Hsub in Hk.
        apply elem_of_dom in Hk as [v Hv]. unfold missing in Hm. now rewrite Hv in Hm.
      * destruct (get_ssl_kwargs kwargs) as [args|e]; [|discriminate].
        cbn. split; [|reflexivity]. intros _ k Hk.
        apply (required_order_keys (PyStr kind)), list_elem_of_In in Hk.
        pose proof (find_none _ _ Hf k Hk) as Hm. unfold missing in Hm.
        apply elem_of_dom. destruct (kwargs !! k); [eauto | discriminate].
    + intros cls args. destruct (get_ssl_kwargs kwargs); cbn; [|discriminate].
      now intros [= <- _].
    + intros e ->. reflexivity.
Qed.

(** The witness of [ssl_env_spec]: the pregenerated kind of the sample
    registry. *)
Lemma ssl_env_spec_witness :
  sample_ssl_options !! "ssl_type" = Some (PyStr "pregenerated")
  /\ is_ok (@ssl_env sample_sslutils sample_ssl_options) = true.
Proof.
  split; [reflexivity|].
  destruct (@ssl_env_spec sample_sslutils sample_ssl_options "pregenerated" eq_refl)
    as (_ & Hin).
  destruct Hin as (Hok & _).
  - vm_compute. reflexivity.
  - apply Hok. intros k Hk.
    change (required_keys (PyStr "pregenerated"))
      with ({[ "host_key_path"; "host_cert_path"; "ca_cert_path" ]} : gset string) in Hk.
    rewrite !elem_of_union, !elem_of_singleton in Hk. apply elem_of_dom.
    destruct Hk as [[->| ->]| ->]; eexists; reflexivity.
Defined.

(** ** Construction and the remote lifecycle *)

(** X7: the base constructor consumes the option [test_server_port]:
    the environment keeps its value, [True] when it is not given, and
    the options mapping, which is the caller's own object, no longer has
    the key afterwards while every other option is kept.  The new
    environment has no configuration and no servers yet.  Without an
    options mapping the constructor raises [AttributeError] before it
    creates the cache manager. *)
Theorem BaseEnvironment_init_options
    (tp : gmap string path_descriptor) (ssl : SslEnv) (pause : bool)
    (dbg : option DebugInfo) (opts : gmap string pyval) (w : World) :
  (exists self,
     fst (BaseEnvironment___init__ tp ssl pause dbg (Some opts) w) = Ok self
     /\ test_server_port self
        = match opts !! "test_server_port" with
          | Some v => v
          | None => PyBool true
          end
     /\ (opts !! "test_server_port" = None -> py_truthy (test_server_port self) = true)
     /\ options self !! "test_server_port" = None
     /\ (forall k, k <> "test_server_port" -> options self !! k = opts !! k)
     /\ config self = PyNone /\ external_config self = PyNone
     /\ servers self = None /\ routes self = None
     /\ test_paths self = tp /\ pause_after_test self = pause /\ debug_info self = dbg)
  /\ (exists msg, BaseEnvironment___init__ tp ssl pause dbg None w
                  = (Raise (AttributeError msg), w)).
Proof.
  split.
  - rewrite BaseEnvironment_init_run. eexists. split; [reflexivity|].
    cbn [test_server_port options config external_config servers routes test_paths
         pause_after_test debug_info].
    unfold dict_get. repeat split.
    + intros ->. reflexivity.
    + apply lookup_delete_eq.
    + intros k Hk. now apply lookup_delete_ne.
  - eexists. reflexivity.
Qed.

(** The remote constructor, run on arguments it accepts. *)
Lemma RemoteServerEnvironment_init_run tp ssl dbg opts ext w :
  opts !! "external_config" = Some ext ->
  exists self,
    RemoteServerEnvironment___init__ tp ssl false dbg (Some opts) w
    = (Ok self, after_base_init w).
Proof.
  intros Hext. unfold RemoteServerEnvironment___init__.
  rewrite bind_run, BaseEnvironment_init_run. cbn [pause_after_test options].
  unfold bind, ret, lift, kw_getitem.
  rewrite lookup_delete_ne by discriminate. rewrite Hext. eauto.
Qed.

(** X8: a remote environment goes through its whole lifecycle without
    an error: constructed without [pause_after_test] and with an
    [external_config] option, then entered, checked with
    [ensure_started] and left, whatever exception is pending.  The
    collaborator calls are, in this order, the creation of the cache
    manager and of the stash, their two entries and their two exits, so
    everything acquired is released; the readiness check makes no call at
    all; the disposition of SIGINT and the processes are untouched. *)
Theorem RemoteServerEnvironment_lifecycle
    (tp : gmap string path_descriptor) (ssl : SslEnv) (dbg : option DebugInfo)
    (opts : gmap string pyval) (ext exc_type exc_val exc_tb : pyval) (w : World) :
  opts !! "external_config" = Some ext ->
  let session : M unit :=
    (self <- RemoteServerEnvironment___init__ tp ssl false dbg (Some opts) ;;
     self <- BaseEnvironment___enter__ self ;;
     BaseEnvironment_ensure_started self ;;
     BaseEnvironment___exit__ self exc_type exc_val exc_tb)%py in
  exists evs,
    fst (session w) = Ok tt
    /\ log (snd (session w)) = (log w ++ evs)%list
    /\ evs = [EvManagerCreated; EvStashCreated; EvCacheManagerEnter; EvStashEnter;
              EvCacheManagerExit (ExcInfo exc_type exc_val exc_tb); EvStashExit]
    /\ acquisitions evs = released evs
    /\ sigint (snd (session w)) = sigint w
    /\ alive (snd (session w)) = alive w.
Proof.
  intros Hext session. subst session.
  destruct (RemoteServerEnvironment_init_run tp ssl dbg opts ext w Hext)
    as (self & Hinit).
  rewrite bind_run, Hinit.
  eexists. split; [reflexivity|]. split; [|split; [reflexivity|]].
  - cbn. rewrite <- !app_assoc. reflexivity.
  - repeat split.
Qed.

(** The witness of [RemoteServerEnvironment_lifecycle]: the sample
    options carry an external configuration. *)
Lemma RemoteServerEnvironment_lifecycle_witness :
  sample_options !! "external_config" = Some (PyDict {[ "host" := PyStr "remote.test" ]})
  /\ fst ((self <- RemoteServerEnvironment___init__ sample_test_paths sample_ssl_env
                     false None (Some sample_options) ;;
           self <- BaseEnvironment___enter__ self ;;
           BaseEnvironment_ensure_started self ;;
           BaseEnvironment___exit__ self PyNone PyNone PyNone)%py sample_world) = Ok tt.
Proof.
  split; [reflexivity|].
  destruct (RemoteServerEnvironment_lifecycle sample_test_paths sample_ssl_env None
              sample_options (PyDict {[ "host" := PyStr "remote.test" ]})
              PyNone PyNone PyNone sample_world eq_refl) as (evs & Hok & _).
  exact Hok.
Defined.

(** ** What [load_config] returns *)

Lemma py_getitem_Ok obj key v :
  py_getitem obj key = Ok v -> exists d, obj = PyDict d /\ d !! key = Some v.
Proof.
  destruct obj; simpl; try discriminate.
  destruct (d !! key) eqn:E; [|discriminate]. intros [= <-]. eauto.
Qed.

Lemma json_parse_Ok `{Json} data v : json_parse data = Ok v -> json_loads data = Some v.
Proof. unfold json_parse. destruct (json_loads data); [now intros [= <-] | discriminate]. Qed.

Lemma serve_path_Ok tp root :
  serve_path tp = Ok root -> exists d, tp !! "/" = Some d /\ root = tests_path d.
Proof. unfold serve_path. destruct (tp !! "/"); [intros [= <-]; eauto | discriminate]. Qed.

(** A successful run of [load_config], step by step. *)
Lemma load_config_Ok_inv `{OsPath, Json, StringFormat, Serve} self w cfg w' :
  load_config self w = (Ok cfg, w') ->
  exists d data0 default_config data text local ssl merged merged' config_host more
         key_file certificate,
    test_paths self !! "/" = Some d
    /\ files w !! os_path_join (tests_path d) "config.default.json" = Some data0
    /\ json_loads data0 = Some default_config
    /\ files w !! os_path_join here "config.json" = Some data
    /\ py_mod data (options self) = Ok text
    /\ json_loads text = Some (PyDict local)
    /\ local !! "ssl" = Some (PyDict ssl)
    /\ merge_json default_config
         (PyDict (<[ "ssl" := PyDict (<[ "encrypt_after_connect" :=
                                          dict_get (options self) "encrypt_after_connect"
                                                   (PyBool false) ]> ssl) ]>
                  (<[ "external_host" := dict_get (options self) "external_host" PyNone ]>
                   local)))
       = Ok (PyDict merged)
    /\ (if ssl_enabled (self_ssl_env self)
        then merged' = <[ "doc_root" := PyStr (tests_path d) ]> merged
        else exists ports,
               merged !! "ports" = Some (PyDict ports)
               /\ merged' = <[ "ports" := PyDict (<[ "https" := PyList [PyNone] ]> ports) ]>
                            (<[ "doc_root" := PyStr (tests_path d) ]> merged))
    /\ merged' !! "host" = Some config_host
    /\ subdomain_hosts (dict_get (options self) "certificate_domain" config_host) = Ok more
    /\ host_cert_path (self_ssl_env self)
         (dict_get (options self) "certificate_domain" config_host :: more)
       = Ok (key_file, certificate)
    /\ cfg = PyDict (<[ "certificate" := certificate ]> (<[ "key_file" := key_file ]> merged'))
    /\ w' = w.
Proof.
  intros Hrun.
  pose proof (load_config_world_preserving self w) as Hw. rewrite Hrun in Hw.
  cbn [snd] in Hw. subst w'.
  unfold load_config in Hrun.
  repeat inv_bind Hrun.
  destruct v15 as [key_file certificate]. repeat inv_bind Hrun.
  apply ret_Ok in Hrun as [-> _].
  apply serve_path_Ok in E as (d & Hroot & ->).
  apply serve_path_Ok in E10 as (d' & Hroot' & ->).
  rewrite Hroot in Hroot'. injection Hroot' as <-.
  apply json_parse_Ok in E1, E4.
  apply py_setitem_Ok in E5 as (local & -> & ->).
  apply py_getitem_Ok in E6 as (local' & [= <-] & Hssl).
  rewrite lookup_insert_ne in Hssl by discriminate.
  apply py_setitem_Ok in E7 as (ssl & -> & ->).
  apply py_setitem_Ok in E8 as (local' & [= <-] & ->).
  apply py_setitem_Ok in E11 as (merged & -> & ->).
  assert (exists merged',
            v12 = PyDict merged'
            /\ if ssl_enabled (self_ssl_env self)
               then merged' = <[ "doc_root" := PyStr (tests_path d) ]> merged
               else exists ports,
                      merged !! "ports" = Some (PyDict ports)
                      /\ merged' = <[ "ports" := PyDict (<[ "https" := PyList [PyNone] ]> ports) ]>
                                   (<[ "doc_root" := PyStr (tests_path d) ]> merged))
    as (merged' & -> & Hmerged').
  { destruct (ssl_enabled (self_ssl_env self)); cbn [negb] in E12.
    - apply ret_Ok in E12 as [-> _]. eauto.
    - repeat inv_bind E12. apply lift_Ok in E12 as [E12 _].
      apply py_getitem_Ok in E as (m & [= <-] & Hports).
      rewrite lookup_insert_ne in Hports by discriminate.
      apply py_setitem_Ok in E5 as (ports & -> & ->).
      apply py_setitem_Ok in E12 as (m & [= <-] & ->).
      eexists. split; [reflexivity|]. eauto. }
  apply py_getitem_Ok in E13 as (m & [= <-] & Hhost).
  apply py_setitem_Ok in E16 as (m & [= <-] & ->).
  apply py_setitem_Ok in E17 as (m & [= <-] & ->).
  exists d, v0, v1, v2, v3, local, ssl, merged, merged', v13, v14, key_file, certificate.
  repeat split; assumption || reflexivity.
Qed.

(** X9: in the configuration that [load_config] returns, [doc_root] is
    the tests directory of the root entry of [test_paths], whatever the
    two files say; [key_file] and [certificate] are what the SSL
    environment's [host_cert_path] returned for the certificate host
    followed by its subdomain hosts, where the certificate host is the
    option [certificate_domain] if given and the configured [host]
    otherwise.  The configuration always has a [host] entry.  Loading
    changes nothing in the world. *)
Theorem load_config_computed_fields `{OsPath, Json, StringFormat, Serve}
    (self : Env) (w w' : World) (cfg : pyval) :
  load_config self w = (Ok cfg, w') ->
  exists d config_host more key_file certificate,
    test_paths self !! "/" = Some d
    /\ py_getitem cfg "doc_root" = Ok (PyStr (tests_path d))
    /\ py_getitem cfg "host" = Ok config_host
    /\ subdomain_hosts (dict_get (options self) "certificate_domain" config_host) = Ok more
    /\ host_cert_path (self_ssl_env self)
         (dict_get (options self) "certificate_domain" config_host :: more)
       = Ok (key_file, certificate)
    /\ py_getitem cfg "key_file" = Ok key_file
    /\ py_getitem cfg "certificate" = Ok certificate
    /\ w' = w.
Proof.
  intros Hrun.
  apply load_config_Ok_inv in Hrun
    as (d & data0 & default_config & data & text & local & ssl & merged & merged'
        & config_host & more & key_file & certificate & Hroot & _ & _ & _ & _ & _ & _
        & _ & Hmerged' & Hhost & Hmore & Hcert & -> & ->).
  exists d, config_host, more, key_file, certificate.
  repeat split; try assumption.
  - rewrite !py_getitem_insert_ne by discriminate. simpl.
    destruct (ssl_enabled (self_ssl_env self)).
    + subst merged'. now rewrite lookup_insert_eq.
    + destruct Hmerged' as (ports & _ & ->).
      rewrite lookup_insert_ne by discriminate. now rewrite lookup_insert_eq.
  - rewrite !py_getitem_insert_ne by discriminate. simpl. now rewrite Hhost.
  - rewrite py_getitem_insert_ne by discriminate. apply py_getitem_insert.
  - apply py_getitem_insert.
Qed.

(** The witness of [load_config_computed_fields]: the sample environment. *)
Lemma load_config_computed_fields_witness :
  py_getitem sample_loaded_config "doc_root" = Ok (PyStr "/tests")
  /\ py_getitem sample_loaded_config "host" = Ok (PyStr "web-platform.test").
Proof.
  assert (@load_config sample_ospath sample_json sample_format sample_serve
            sample_env sample_world = (Ok sample_loaded_config, sample_world)) as Hrun
    by (vm_compute; reflexivity).
  destruct (@load_config_computed_fields sample_ospath sample_json sample_format
              sample_serve _ _ _ _ Hrun)
    as (d & config_host & more & key_file & certificate & Hroot & Hdoc & _).
  split; [|reflexivity].
  rewrite Hdoc. f_equal. f_equal.
  assert (Some d = Some (PathDescriptor "/tests" ∅)) as Hd by (rewrite <- Hroot; reflexivity).
  now injection Hd as ->.
Defined.

(** X10: [load_config] returns the merged configuration with only these
    entries changed: [doc_root], [key_file], [certificate] and, when SSL
    is disabled, the HTTPS entry of [ports].  Every other entry is as
    [serve.merge_json] produced it; with SSL enabled [ports] is not
    touched, and with SSL disabled the ports of the other schemes are
    kept. *)
Theorem load_config_keeps_merged `{OsPath, Json, StringFormat, Serve}
    (self : Env) (w w' : World) (cfg : pyval) :
  load_config self w = (Ok cfg, w') ->
  exists default_config local' merged result,
    merge_json default_config local' = Ok (PyDict merged)
    /\ cfg = PyDict result
    /\ (forall k, k <> "doc_root" -> k <> "ports" -> k <> "key_file" -> k <> "certificate" ->
          result !! k = merged !! k)
    /\ (ssl_enabled (self_ssl_env self) = true -> result !! "ports" = merged !! "ports")
    /\ (ssl_enabled (self_ssl_env self) = false ->
        exists ports ports',
          merged !! "ports" = Some (PyDict ports)
          /\ result !! "ports" = Some (PyDict ports')
          /\ ports' !! "https" = Some (PyList [PyNone])
          /\ forall scheme, scheme <> "https" -> ports' !! scheme = ports !! scheme).
Proof.
  intros Hrun.
  apply load_config_Ok_inv in Hrun
    as (d & data0 & default_config & data & text & local & ssl & merged & merged'
        & config_host & more & key_file & certificate & _ & _ & _ & _ & _ & _ & _
        & Hmerge & Hmerged' & _ & _ & _ & -> & _).
  eexists _, _, merged, _. split; [exact Hmerge|]. split; [reflexivity|].
  destruct (ssl_enabled (self_ssl_env self)).
  - subst merged'. split; [|split; [|discriminate]].
    + intros k Hk1 Hk2 Hk3 Hk4. now rewrite !lookup_insert_ne by congruence.
    + intros _. now rewrite !lookup_insert_ne by discriminate.
  - destruct Hmerged' as (ports & Hports & ->). split; [|split; [discriminate|]].
    + intros k Hk1 Hk2 Hk3 Hk4. now rewrite !lookup_insert_ne by congruence.
    + intros _. exists ports, (<[ "https" := PyList [PyNone] ]> ports).
      split; [exact Hports|]. split; [|split].
      * rewrite !lookup_insert_ne by discriminate. apply lookup_insert_eq.
      * apply lookup_insert_eq.
      * intros scheme Hs. now rewrite lookup_insert_ne by congruence.
Qed.

(** The witness of [load_config_keeps_merged]: in the sample the HTTP
    ports of the local file survive. *)
Lemma load_config_keeps_merged_witness :
  exists result ports',
    sample_loaded_config = PyDict result
    /\ result !! "ports" = Some (PyDict ports')
    /\ ports' !! "http" = Some (PyList [PyInt 8000; PyInt 8001]).
Proof.
  assert (@load_config sample_ospath sample_json sample_format sample_serve
            sample_env sample_world = (Ok sample_loaded_config, sample_world)) as Hrun
    by (vm_compute; reflexivity).
  destruct (@load_config_keeps_merged sample_ospath sample_json sample_format
              sample_serve _ _ _ _ Hrun)
    as (default_config & local' & merged & result & _ & Hcfg & _ & _ & Hoff).
  destruct (Hoff eq_refl) as (ports & ports' & _ & Hp' & _ & _).
  exists result, ports'. split; [exact Hcfg|]. split; [exact Hp'|].
  injection Hcfg as <-. vm_compute in Hp'. injection Hp' as <-. vm_compute. reflexivity.
Defined.

(** X11: what [load_config] hands to [serve.merge_json].  The default
    file is parsed as it is, without interpolation; the local file is
    interpolated with the options and then parsed.  In the local
    configuration [external_host] is then set to the option of that name,
    [None] without it, and [encrypt_after_connect] under [ssl] to the
    option of that name, [False] without it, so what the local file says
    for these two is overridden; the other entries of the local
    configuration and of its [ssl] object are kept. *)
Theorem load_config_merge_inputs `{OsPath, Json, StringFormat, Serve}
    (self : Env) (w w' : World) (cfg : pyval) :
  load_config self w = (Ok cfg, w') ->
  exists d data0 default_config data text local local' ssl ssl' merged,
    test_paths self !! "/" = Some d
    /\ files w !! os_path_join (tests_path d) "config.default.json" = Some data0
    /\ json_loads data0 = Some default_config
    /\ files w !! os_path_join here "config.json" = Some data
    /\ py_mod data (options self) = Ok text
    /\ json_loads text = Some (PyDict local)
    /\ merge_json default_config (PyDict local') = Ok merged
    /\ local' !! "external_host" = Some (dict_get (options self) "external_host" PyNone)
    /\ local !! "ssl" = Some (PyDict ssl)
    /\ local' !! "ssl" = Some (PyDict ssl')
    /\ ssl' !! "encrypt_after_connect"
       = Some (dict_get (options self) "encrypt_after_connect" (PyBool false))
    /\ (forall k, k <> "encrypt_after_connect" -> ssl' !! k = ssl !! k)
    /\ (forall k, k <> "external_host" -> k <> "ssl" -> local' !! k = local !! k).
Proof.
  intros Hrun.
  apply load_config_Ok_inv in Hrun
    as (d & data0 & default_config & data & text & local & ssl & merged & merged'
        & config_host & more & key_file & certificate & Hroot & Hf0 & Hj0 & Hf & Hmod
        & Hj & Hssl & Hmerge & _).
  set (ssl' := <[ "encrypt_after_connect" :=
                    dict_get (options self) "encrypt_after_connect" (PyBool false) ]> ssl)
    in *.
  exists d, data0, default_config, data, text, local,
    (<[ "ssl" := PyDict ssl' ]>
     (<[ "external_host" := dict_get (options self) "external_host" PyNone ]> local)),
    ssl, ssl', (PyDict merged).
  repeat split; try assumption; subst ssl'.
  - rewrite lookup_insert_ne by discriminate. apply lookup_insert_eq.
  - apply lookup_insert_eq.
  - apply lookup_insert_eq.
  - intros k Hk. now rewrite lookup_insert_ne by congruence.
  - intros k Hk1 Hk2. now rewrite !lookup_insert_ne by congruence.
Qed.

(** The witness of [load_config_merge_inputs]: the sample environment. *)
Lemma load_config_merge_inputs_witness :
  exists data text local,
    files sample_world !! "/wptrunner/config.json" = Some data
    /\ @py_mod sample_format data (options sample_env) = Ok text
    /\ @json_loads sample_json text = Some (PyDict local).
Proof.
  assert (@load_config sample_ospath sample_json sample_format sample_serve
            sample_env sample_world = (Ok sample_loaded_config, sample_world)) as Hrun
    by (vm_compute; reflexivity).
  destruct (@load_config_merge_inputs sample_ospath sample_json sample_format
              sample_serve _ _ _ _ Hrun)
    as (d & data0 & default_config & data & text & local & local' & ssl & ssl' & merged
        & _ & _ & _ & Hf & Hmod & Hj & _).
  exists data, text, local. split; [exact Hf|]. split; [exact Hmod | exact Hj].
Defined.

(** ** Entering a local environment *)

(** A successful [__enter__], step by step. *)
Lemma enter_Ok_inv `{OsPath, Json, StringFormat, Serve} self w self' w' :
  LocalServerEnvironment___enter__ self w = (Ok self', w') ->
  let wl := add_events [EvCacheManagerEnter; EvStashEnter; EvSslEnter;
                        EvSetupServerLogging] w in
  exists cfg0 cfg r ext svs,
    default_logger w = true
    /\ load_config self wl = (Ok cfg0, wl)
    /\ set_computed_defaults cfg0 = Ok cfg
    /\ get_routes (set_config cfg self) = Ok r
    /\ serve_start cfg (self_ssl_env self) r = Ok (ext, svs)
    /\ self' = set_servers svs (set_external_config ext (set_config cfg self))
    /\ w' = (if debugger_attached self
             then fun w0 => set_sigint SIG_IGN (add_log (EvSignal SIG_IGN) w0)
             else fun w0 => w0)
              (set_alive (alive w ∪ list_to_set (server_procs svs))
                 (add_events [EvSetComputedDefaults; EvServeStart] wl)).
Proof.
  intros Hrun wl. unfold LocalServerEnvironment___enter__ in Hrun.
  inv_bind Hrun.
  unfold BaseEnvironment___enter__ in E. repeat inv_bind E. clear E.
  inv_bind Hrun. clear E. inv_bind Hrun.
  assert (default_logger w = true) as Hlogger.
  { unfold setup_server_logging, bind, get_world in E. cbn [default_logger add_log] in E.
    destruct (default_logger w); [reflexivity | discriminate]. }
  apply setup_server_logging_Ok in E as ->.
  inv_bind Hrun.
  match type of E with
  | load_config _ ?w1 = _ =>
      pose proof (load_config_world_preserving self w1) as Hw;
      rewrite E in Hw; cbn [snd] in Hw; subst w0
  end.
  inv_bind Hrun. inv_bind Hrun. clear E1.
  inv_bind Hrun. inv_bind Hrun. inv_bind Hrun. clear E3.
  inv_bind Hrun. inv_bind Hrun.
  apply ret_Ok in Hrun as [-> ->].
  destruct v6 as [ext svs]. cbn [fst snd] in *.
  exists v2, v3, v5, ext, svs.
  split; [exact Hlogger|]. split; [exact E|]. split; [exact E0|].
  split; [exact E1|]. split; [exact E2|]. split; [reflexivity|].
  change (debugger_attached
            (set_servers svs (set_external_config ext (set_config v3 self))))
    with (debugger_attached self) in E4.
  destruct (debugger_attached self).
  - unfold ignore_interrupts in E4. inv_bind E4.
    apply modify_Ok in E4 as ->. reflexivity.
  - apply ret_Ok in E4 as [_ ->]. reflexivity.
Qed.

(** X12: a successful [__enter__] returns the environment with its
    configuration, external configuration and servers set and nothing
    else changed; the configuration is the loaded one after
    [serve.set_computed_defaults], and the servers are those that
    [serve.start] returned for it, the SSL environment and the routes.
    The collaborators are called in the order cache manager, stash, SSL
    environment, logging, configuration defaults, server start, and
    SIGINT is set to ignored last and only with an interactive debugger.
    Afterwards the started processes are alive beside those that were
    alive before; no file changes. *)
Theorem enter_success `{OsPath, Json, StringFormat, Serve}
    (self self' : Env) (w w' : World) :
  LocalServerEnvironment___enter__ self w = (Ok self', w') ->
  exists cfg r ext svs,
    self' = set_servers svs (set_external_config ext (set_config cfg self))
    /\ get_routes (set_config cfg self) = Ok r
    /\ serve_start cfg (self_ssl_env self) r = Ok (ext, svs)
    /\ log w' = (log w
                 ++ [EvCacheManagerEnter; EvStashEnter; EvSslEnter; EvSetupServerLogging;
                     EvSetComputedDefaults; EvServeStart]
                 ++ (if debugger_attached self then [EvSignal SIG_IGN] else []))%list
    /\ alive w' = alive w ∪ list_to_set (server_procs svs)
    /\ sigint w' = (if debugger_attached self then SIG_IGN else sigint w)
    /\ files w' = files w
    /\ test_paths self' = test_paths self
    /\ options self' = options self
    /\ test_server_port self' = test_server_port self
    /\ routes self' = routes self.
Proof.
  intros Hrun. apply enter_Ok_inv in Hrun
    as (cfg0 & cfg & r & ext & svs & _ & _ & _ & Hr & Hstart & -> & ->).
  exists cfg, r, ext, svs. split; [reflexivity|]. split; [exact Hr|].
  split; [exact Hstart|].
  destruct (debugger_attached self); cbn; rewrite <- ?app_assoc; repeat split.
Qed.

(** The witness of [enter_success]: the sample environment. *)
Lemma enter_success_witness :
  exists svs,
    servers sample_self = Some svs
    /\ alive (snd sample_entered) = alive sample_world ∪ list_to_set (server_procs svs).
Proof.
  assert (@LocalServerEnvironment___enter__ sample_ospath sample_json sample_format
            sample_serve sample_env sample_world
          = (Ok sample_self, snd sample_entered)) as Hrun
    by (vm_compute; reflexivity).
  destruct (@enter_success sample_ospath sample_json sample_format sample_serve
              _ _ _ _ Hrun) as (cfg & r & ext & svs & Hself & _ & _ & _ & Halive & _).
  exists svs. split; [now rewrite Hself | exact Halive].
Defined.

(** X13: [__enter__] has no cleanup path.  When it raises, whatever
    the step that failed, the cache manager, the stash and the SSL
    environment have been entered and nothing has been exited or killed:
    the calls made are these three entries followed at most by the
    logging setup and the configuration defaults.  No process was started
    and the disposition of SIGINT is as before. *)
Theorem enter_failure_releases_nothing `{OsPath, Json, StringFormat, Serve}
    (self : Env) (w w' : World) (e : exn) :
  LocalServerEnvironment___enter__ self w = (Raise e, w') ->
  exists evs,
    log w' = (log w ++ [EvCacheManagerEnter; EvStashEnter; EvSslEnter] ++ evs)%list
    /\ (evs = [] \/ evs = [EvSetupServerLogging]
        \/ evs = [EvSetupServerLogging; EvSetComputedDefaults])
    /\ acquisitions ([EvCacheManagerEnter; EvStashEnter; EvSslEnter] ++ evs)
       = [RCacheManager; RStash; RSslEnv]
    /\ released ([EvCacheManagerEnter; EvStashEnter; EvSslEnter] ++ evs) = []
    /\ alive w' = alive w
    /\ sigint w' = sigint w
    /\ files w' = files w.
Proof.
  intros Hrun. unfold LocalServerEnvironment___enter__ in Hrun.
  cbv [bind BaseEnvironment___enter__ emit ret setup_server_logging get_world raise
       lift modify] in Hrun.
  cbn [default_logger add_log] in Hrun.
  destruct (default_logger w).
  - match type of Hrun with
    | context [load_config self ?w4] =>
        pose proof (load_config_world_preserving self w4) as Hw;
        destruct (load_config self w4) as [[cfg0|e0] w5]; cbn [snd] in Hw; subst w5
    end.
    + destruct (set_computed_defaults cfg0) as [cfg|e1].
      * destruct (get_routes (set_config cfg self)) as [r|e2].
        -- destruct (serve_start cfg (self_ssl_env (set_config cfg self)) r)
             as [[ext svs]|e3].
           ++ exfalso. cbn [fst snd] in Hrun.
              change (debugger_attached
                        (set_servers svs (set_external_config ext (set_config cfg self))))
                with (debugger_attached self) in Hrun.
              destruct (debugger_attached self); discriminate Hrun.
           ++ injection Hrun as <- <-.
              exists [EvSetupServerLogging; EvSetComputedDefaults].
              cbn. rewrite <- !app_assoc. repeat split; auto.
        -- injection Hrun as <- <-.
           exists [EvSetupServerLogging; EvSetComputedDefaults].
           cbn. rewrite <- !app_assoc. repeat split; auto.
      * injection Hrun as <- <-. exists [EvSetupServerLogging].
        cbn. rewrite <- !app_assoc. repeat split; auto.
    + injection Hrun as <- <-. exists [EvSetupServerLogging].
      cbn. rewrite <- !app_assoc. repeat split; auto.
  - injection Hrun as <- <-. exists [].
    cbn. rewrite <- !app_assoc. repeat split; auto.
Qed.

(** The witness of [enter_failure_releases_nothing]: the sample
    environment when the default configuration file is missing. *)
Lemma enter_failure_releases_nothing_witness :
  exists evs,
    log (snd (@LocalServerEnvironment___enter__ sample_ospath sample_json sample_format
                sample_serve sample_env sample_world_no_default))
    = ([] ++ [EvCacheManagerEnter; EvStashEnter; EvSslEnter] ++ evs)%list
    /\ released ([EvCacheManagerEnter; EvStashEnter; EvSslEnter] ++ evs) = [].
Proof.
  assert (@LocalServerEnvironment___enter__ sample_ospath sample_json sample_format
            sample_serve sample_env sample_world_no_default
          = (Raise (IOError "/tests/config.default.json"),
             snd (@LocalServerEnvironment___enter__ sample_ospath sample_json
                    sample_format sample_serve sample_env sample_world_no_default)))
    as Hrun by (vm_compute; reflexivity).
  destruct (@enter_failure_releases_nothing sample_ospath sample_json sample_format
              sample_serve _ _ _ _ Hrun) as (evs & Hlog & _ & _ & Hrel & _).
  exists evs. split; [exact Hlog | exact Hrel].
Defined.

(** ** More on the readiness check *)

(** A subscript fails with [KeyError] or [TypeError]. *)
Lemma py_getitem_Raise obj key e :
  py_getitem obj key = Raise e ->
  (exists k, e = KeyError k) \/ (exists msg, e = TypeError msg).
Proof.
  destruct obj as [| | | | |d]; simpl; try (intros [= <-]; right; eauto).
  destruct (d !! key); [discriminate|]. intros [= <-]. left. eauto.
Qed.

(** One pass of the loop body when the host cannot be read from the
    configuration. *)
Lemma check_server_run_no_host self scheme port server w e :
  py_truthy (test_server_port self) = true ->
  py_getitem (config self) "host" = Raise e ->
  check_server self scheme port server w
  = (Raise e, add_events [EvSocket; EvSocketClose] w).
Proof.
  intros Hp He. unfold check_server. rewrite Hp, He.
  cbv [bind try_finally try_except lift emit].
  destruct (py_getitem_Raise _ _ _ He) as [[k ->]|[msg ->]]; reflexivity.
Qed.

(** X14: when the TCP probe is on and the configuration has no [host]
    to connect to (for instance because it was never loaded), the check
    of the first server fails with the exception of the subscript,
    [KeyError] or [TypeError], not with [EnvironmentError]: the socket
    that was opened is closed again, nothing is connected and no process
    is asked whether it is alive. *)
Theorem ensure_started_without_host
    (self : Env) (s : servers_t) (t : string * Z * proc)
    (rest : list (string * Z * proc)) (e : exn) (w : World) :
  servers self = Some s ->
  flat_servers s = t :: rest ->
  py_truthy (test_server_port self) = true ->
  py_getitem (config self) "host" = Raise e ->
  LocalServerEnvironment_ensure_started self w
  = (Raise e, add_events [EvSleep 2; EvSocket; EvSocketClose] w)
  /\ ((exists k, e = KeyError k) \/ (exists msg, e = TypeError msg)).
Proof.
  intros Hs Hflat Hp He. split; [|exact (py_getitem_Raise _ _ _ He)].
  unfold LocalServerEnvironment_ensure_started, get_servers. rewrite Hs.
  rewrite bind_run. cbn [emit]. rewrite bind_run. cbn [ret].
  rewrite (for_each_servers (check_server self)). rewrite Hflat.
  cbn [for_each]. rewrite bind_run.
  now rewrite (check_server_run_no_host self _ _ _ _ e Hp He).
Qed.

(** The witness of [ensure_started_without_host]: the sample environment
    with servers but without a loaded configuration. *)
Lemma ensure_started_without_host_witness :
  exists msg,
    fst (LocalServerEnvironment_ensure_started
           (set_servers sample_servers sample_env) sample_world)
    = Raise (TypeError msg).
Proof.
  destruct (ensure_started_without_host (set_servers sample_servers sample_env)
              sample_servers ("http", 8000, 1%positive)
              [("http", 8001, 2%positive); ("https", 8443, 3%positive)]
              (TypeError "object has no attribute '__getitem__'") sample_world
              eq_refl eq_refl eq_refl eq_refl) as (Hrun & _).
  eexists. now rewrite Hrun.
Defined.

Lemma sockets_balanced_app evs1 evs2 :
  sockets_balanced evs1 -> sockets_balanced evs2 -> sockets_balanced (evs1 ++ evs2).
Proof.
  unfold sockets_balanced. rewrite !count_events_app. lia.
Qed.

(** A loop whose body only adds calls with a property that is kept by
    concatenation only adds calls with that property. *)
Lemma for_each_events {A} (P : list event -> Prop) (f : A -> M unit) (l : list A) :
  P [] ->
  (forall evs1 evs2, P evs1 -> P evs2 -> P (evs1 ++ evs2)%list) ->
  (forall x w, exists evs, snd (f x w) = add_events evs w /\ P evs) ->
  forall w, exists evs, snd (for_each l f w) = add_events evs w /\ P evs.
Proof.
  intros Hnil Happ Hf. induction l as [|x l IH]; intros w.
  - exists []. split; [reflexivity | exact Hnil].
  - cbn [for_each]. rewrite bind_run.
    destruct (Hf x w) as (evs1 & H1 & P1).
    destruct (f x w) as [[u|e] w1]; cbn [snd] in H1; subst w1.
    + destruct (IH (add_events evs1 w)) as (evs2 & H2 & P2).
      exists (evs1 ++ evs2)%list. split; [|now apply Happ].
      now rewrite add_events_app.
    + exists evs1. split; [reflexivity | exact P1].
Qed.

Lemma check_server_sockets self scheme port server w :
  exists evs,
    snd (check_server self scheme port server w) = add_events evs w
    /\ sockets_balanced evs.
Proof.
  destruct (py_truthy (test_server_port self)) eqn:Hp.
  - destruct (py_getitem (config self) "host") as [h|e] eqn:Hh.
    + rewrite (check_server_run self h) by (intros _; exact Hh). cbn [snd].
      eexists. split; [reflexivity|].
      unfold check_events, probe_fails. rewrite Hp. cbn [fst snd andb].
      destruct (connect_ok w h port); cbv; lia.
    + rewrite (check_server_run_no_host self _ _ _ _ e Hp Hh). cbn [snd].
      eexists. split; [reflexivity|]. cbv. lia.
  - rewrite (check_server_run self PyNone) by (intros Hc; congruence). cbn [snd].
    eexists. split; [reflexivity|].
    unfold check_events, probe_fails. rewrite Hp. cbv. lia.
Qed.

(** X15: [ensure_started] never leaks a socket.  Whatever the
    environment and however the check ends (normally, with
    [EnvironmentError] or with another exception), it only adds calls to
    the log, among them exactly as many closes as sockets opened and no
    more connects than sockets; files, processes and the disposition of
    SIGINT are as before. *)
Theorem ensure_started_closes_sockets (self : Env) (w : World) :
  let w' := snd (LocalServerEnvironment_ensure_started self w) in
  exists evs,
    log w' = (log w ++ EvSleep 2 :: evs)%list
    /\ count_events is_socket evs = count_events is_close evs
    /\ (count_events is_connect evs <= count_events is_socket evs)%nat
    /\ alive w' = alive w /\ sigint w' = sigint w /\ files w' = files w.
Proof.
  cbv zeta.
  assert (exists evs,
            snd (LocalServerEnvironment_ensure_started self w)
            = add_events evs (add_log (EvSleep 2) w)
            /\ sockets_balanced evs) as (evs & Hw & Hbal & Hconn).
  { unfold LocalServerEnvironment_ensure_started, get_servers.
    rewrite bind_run. cbn [emit].
    destruct (servers self) as [s|].
    - rewrite bind_run. cbn [ret].
      apply (for_each_events sockets_balanced).
      + cbv. lia.
      + apply sockets_balanced_app.
      + intros entry w1. apply (for_each_events sockets_balanced).
        * cbv. lia.
        * apply sockets_balanced_app.
        * intros ps w2. apply check_server_sockets.
    - exists []. split; [reflexivity | cbv; lia]. }
  exists evs. rewrite Hw.
  destruct (add_events_frame evs (add_log (EvSleep 2) w)) as (-> & -> & _ & ->).
  rewrite add_events_log. cbn [log add_log]. rewrite <- app_assoc.
  repeat split; assumption.
Qed.

Lemma visited_none {A} (f : A -> bool) l :
  (forall x, x ∈ l -> f x = false) -> visited f l = l /\ find f l = None.
Proof.
  induction l as [|x l IH]; intros Hf; [split; reflexivity|].
  cbn [visited find]. rewrite (Hf x) by left.
  destruct IH as [-> ->]; [|split; reflexivity].
  intros y Hy. apply Hf. now right.
Qed.

Lemma count_events_exact_flat_map {A} p (f : A -> list event) (l : list A) :
  (forall x, count_events p (f x) = 1%nat) ->
  count_events p (flat_map f l) = length l.
Proof.
  intros Hf. induction l as [|x l IH]; [reflexivity|].
  cbn [flat_map length]. now rewrite count_events_app, Hf, IH.
Qed.

(** The calls made for servers that all pass their checks. *)
Lemma all_ready_events self w host (l : list (string * Z * proc)) :
  (forall t, t ∈ l -> check_fails self w host t = false) ->
  let evs := flat_map (check_events self w host) l in
  List.filter is_is_alive evs = map (fun t => EvIsAlive (snd t)) l
  /\ count_events is_is_alive evs = length l
  /\ count_events is_connect evs
     = if py_truthy (test_server_port self) then length l else 0%nat.
Proof.
  induction l as [|t l IH]; intros Hok.
  - cbn. now destruct (py_truthy (test_server_port self)).
  - destruct IH as (IH1 & IH2 & IH3); [intros x Hx; apply Hok; now right|].
    assert (check_events self w host t
            = ((if py_truthy (test_server_port self)
                then [EvSocket; EvConnect host (snd (fst t)); EvSocketClose] else [])
               ++ [EvIsAlive (snd t)])%list) as Hev.
    { specialize (Hok t (list_elem_of_here _ _)). unfold check_fails in Hok.
      apply orb_false_iff in Hok as [Hpf _]. unfold check_events. now rewrite Hpf. }
    cbn zeta in *. cbn [flat_map map length].
    rewrite List.filter_app, !count_events_app, IH1, IH2, IH3, Hev.
    destruct (py_truthy (test_server_port self)); repeat split.
Qed.

(** X16: when every server accepts the probe and is alive,
    [ensure_started] returns normally after it has checked every server
    exactly once, in the order of [self.servers]: one aliveness question
    per server and, with the probe on, one connect per server. *)
Theorem ensure_started_all_ready
    (self : Env) (host : pyval) (s : servers_t) (w : World) :
  servers self = Some s ->
  (py_truthy (test_server_port self) = true ->
   py_getitem (config self) "host" = Ok host) ->
  (forall t, t ∈ flat_servers s -> check_fails self w host t = false) ->
  let evs := flat_map (check_events self w host) (flat_servers s) in
  LocalServerEnvironment_ensure_started self w
  = (Ok tt, add_events (EvSleep 2 :: evs) w)
  /\ List.filter is_is_alive evs = map (fun t => EvIsAlive (snd t)) (flat_servers s)
  /\ count_events is_is_alive evs = length (flat_servers s)
  /\ count_events is_connect evs
     = if py_truthy (test_server_port self) then length (flat_servers s) else 0%nat.
Proof.
  intros Hs Hhost Hok evs.
  destruct (visited_none (check_fails self w host) (flat_servers s) Hok) as [Hv Hf].
  split; [|exact (all_ready_events self w host (flat_servers s) Hok)].
  rewrite (ensure_started_run self host s w Hs Hhost). rewrite Hf, Hv. reflexivity.
Qed.

(** The witness of [ensure_started_all_ready]: the started sample
    environment with its three processes alive. *)
Lemma ensure_started_all_ready_witness :
  fst (LocalServerEnvironment_ensure_started sample_started sample_world_all_alive)
  = Ok tt.
Proof.
  assert (forall t, t ∈ flat_servers sample_servers ->
            check_fails sample_started sample_world_all_alive (PyStr "localhost") t
            = false) as Hok.
  { intros t Ht. unfold flat_servers, sample_servers in Ht. cbn in Ht.
    rewrite !elem_of_cons, elem_of_nil in Ht.
    destruct Ht as [->|[->|[->|[]]]]; vm_compute; reflexivity. }
  destruct (ensure_started_all_ready sample_started (PyStr "localhost") sample_servers
              sample_world_all_alive eq_refl (fun _ => eq_refl) Hok) as (Hrun & _).
  now rewrite Hrun.
Defined.

(** ** More on the routes *)

(** With a usable report option the builder calls of [get_routes] cannot
    fail. *)
Lemma get_routes_is_ok `{OsPath} self report :
  as_path (dict_get (options self) "testharnessreport" (PyStr "testharnessreport.js"))
    = Ok report ->
  is_ok (get_routes self) = true.
Proof.
  intros Hreport. unfold get_routes, static_specs. cbn [add_statics rbind as_path].
  rewrite Hreport. cbn [rbind].
  set (b := add_static _ _ _ _ (add_static _ _ _ _ RoutesBuilder_new)).
  case_bool_decide; [|reflexivity].
  unfold del_mountpoint_route. rewrite add_mount_points_fresh.
  - reflexivity.
  - apply NoDup_fst_map_to_list.
  - intros k _ Hne. subst b. simpl. intros Hin.
    apply list_elem_of_singleton in Hin. contradiction.
Qed.

(** X17: [get_routes] succeeds exactly when the option
    [testharnessreport] is absent or a string; with any other value the
    path join fails with [AttributeError], for every [test_paths].  It
    reads only the test paths, the options and [pause_after_test]: the
    routes computed by the constructor and those computed again by
    [__enter__], after the configuration is loaded, are the same. *)
Theorem get_routes_option `{OsPath} (self : Env) :
  match dict_get (options self) "testharnessreport" (PyStr "testharnessreport.js") with
  | PyStr _ => is_ok (get_routes self) = true
  | _ => exists msg, get_routes self = Raise (AttributeError msg)
  end
  /\ (options self !! "testharnessreport" = None -> is_ok (get_routes self) = true)
  /\ (forall cfg ext s r,
        get_routes (set_servers s (set_external_config ext (set_config cfg (set_routes r self))))
        = get_routes self).
Proof.
  split; [|split].
  - destruct (dict_get (options self) "testharnessreport" (PyStr "testharnessreport.js"))
      eqn:Hopt;
      try (unfold get_routes, static_specs; cbn [add_statics rbind as_path];
           rewrite Hopt; cbn [rbind as_path]; eexists; reflexivity).
    apply (get_routes_is_ok self s). now rewrite Hopt.
  - intros Hnone. apply (get_routes_is_ok self "testharnessreport.js").
    unfold dict_get. now rewrite Hnone.
  - reflexivity.
Qed.
